(** * chezmoi v2: reconciliation of one target-state entry

    A shallow embedding of [v2/chezmoi/targetstateentry.go]: the five
    target-state variants, their [Apply], [Equal] and [Evaluate] methods, and
    the once-script bookkeeping, together with the properties the
    specification states about them.

    Go's [error] results are modelled by a sum type, the [System] interface by
    a type class over an abstract external state, and every call made on the
    [System] is recorded, with its outcome, in the trace a method returns. *)

From Stdlib Require Import ZArith List Bool Lia.
From Stdlib.Strings Require Import String Ascii Byte.
From Stdlib.Numbers Require Import DecimalString.
Import ListNotations.
Local Open Scope Z_scope.

(** ** Bytes and strings *)

(** A Go [[]byte]. Go strings are byte sequences too and are modelled by
    [string]; [bytes_of_string] is the conversion [[]byte(s)]. *)
Definition bytes := list byte.

Definition bytes_of_string (s : string) : bytes := list_byte_of_string s.

Definition byte_to_Z (b : byte) : Z := Z.of_N (Byte.to_N b).

Definition byte_of_Z (x : Z) : byte :=
  match Byte.of_N (Z.to_N (x mod 256)) with
  | Some b => b
  | None => x00
  end.

Definition bytes_eqb (a b : bytes) : bool :=
  if list_eq_dec Byte.byte_eq_dec a b then true else false.

(** ** encoding/hex *)

Module hex.

Definition hextable : string := "0123456789abcdef".

Definition digit (n : Z) : ascii :=
  match String.get (Z.to_nat n) hextable with
  | Some c => c
  | None => "0"%char
  end.

(** [hex.EncodeToString]: two lower-case digits for each byte, the high
    nibble first. *)
Fixpoint EncodeToString (src : bytes) : string :=
  match src with
  | [] => EmptyString
  | b :: rest =>
      let v := byte_to_Z b in
      String (digit (Z.shiftr v 4))
        (String (digit (Z.land v 15)) (EncodeToString rest))
  end.

End hex.

(** ** crypto/sha256 *)

Module sha256.

Definition mask32 : Z := 0xffffffff.
Definition add32 (x y : Z) : Z := (x + y) mod 2 ^ 32.
Definition not32 (x : Z) : Z := Z.lxor x mask32.
Definition rotr (n x : Z) : Z :=
  Z.lor (Z.shiftr x n) (Z.land (Z.shiftl x (32 - n)) mask32).

Definition Ch (x y z : Z) : Z := Z.lxor (Z.land x y) (Z.land (not32 x) z).
Definition Maj (x y z : Z) : Z :=
  Z.lxor (Z.lxor (Z.land x y) (Z.land x z)) (Z.land y z).
Definition bsig0 (x : Z) : Z := Z.lxor (Z.lxor (rotr 2 x) (rotr 13 x)) (rotr 22 x).
Definition bsig1 (x : Z) : Z := Z.lxor (Z.lxor (rotr 6 x) (rotr 11 x)) (rotr 25 x).
Definition ssig0 (x : Z) : Z := Z.lxor (Z.lxor (rotr 7 x) (rotr 18 x)) (Z.shiftr x 3).
Definition ssig1 (x : Z) : Z := Z.lxor (Z.lxor (rotr 17 x) (rotr 19 x)) (Z.shiftr x 10).

(** The primes up to 311, the first sixty-four. *)
Definition isPrime (n : Z) : bool :=
  forallb (fun d => negb (n mod d =? 0))
          (map Z.of_nat (seq 2 (Z.to_nat n - 2))).

Definition primes : list Z := filter isPrime (map Z.of_nat (seq 2 310)).

(** The integer part of the [k]-th root of [n], found bit by bit below
    [2 ^ bits]. *)
Fixpoint iroot (k n : Z) (bits : nat) (r : Z) : Z :=
  match bits with
  | O => r
  | S b =>
      let c := r + 2 ^ Z.of_nat b in
      if c ^ k <=? n then iroot k n b c else iroot k n b r
  end.

(** The first 32 bits of the fractional part of the [k]-th root of [p]. *)
Definition fractional (k p : Z) : Z := iroot k (p * 2 ^ (32 * k)) 40 0 mod 2 ^ 32.

(** The round constants come from the cube roots of the first sixty-four
    primes, the initial hash value from the square roots of the first
    eight. *)
Definition K : list Z := Eval vm_compute in map (fractional 3) primes.

Definition H0 : list Z :=
  Eval vm_compute in map (fractional 2) (firstn 8 primes).

(** Big-endian encoding of [x] on [n] bytes, and decoding. *)
Fixpoint be_bytes (n : nat) (x : Z) : bytes :=
  match n with
  | O => []
  | S m => byte_of_Z (Z.shiftr x (8 * Z.of_nat m)) :: be_bytes m x
  end.

Definition be_word (bs : bytes) : Z :=
  fold_left (fun acc b => acc * 256 + byte_to_Z b) bs 0.

(** The message, the byte 0x80, zeros up to 56 modulo 64, and the length in
    bits on eight bytes. *)
Definition pad (msg : bytes) : bytes :=
  let len := Z.of_nat (List.length msg) in
  let zeros := Z.to_nat ((55 - len) mod 64) in
  msg ++ x80 :: repeat x00 zeros ++ be_bytes 8 (8 * len).

Fixpoint chunks (fuel : nat) (size : nat) (l : bytes) : list bytes :=
  match fuel, l with
  | O, _ | _, [] => []
  | S f, _ => firstn size l :: chunks f size (skipn size l)
  end.

Definition words_of_block (block : bytes) : list Z :=
  map be_word (chunks 16 4 block).

(** The message schedule, kept most recent word first while it grows. *)
Fixpoint extend (n : nat) (w : list Z) : list Z :=
  match n with
  | O => w
  | S m =>
      let x := add32 (add32 (ssig1 (nth 1 w 0)) (nth 6 w 0))
                     (add32 (ssig0 (nth 14 w 0)) (nth 15 w 0)) in
      extend m (x :: w)
  end.

Definition schedule (block : bytes) : list Z :=
  rev (extend 48 (rev (words_of_block block))).

Definition round (v : list Z) (kw : Z * Z) : list Z :=
  match v with
  | [a; b; c; d; e; f; g; h] =>
      let t1 := add32 (add32 (add32 h (bsig1 e)) (add32 (Ch e f g) (fst kw))) (snd kw) in
      let t2 := add32 (bsig0 a) (Maj a b c) in
      [add32 t1 t2; a; b; c; add32 d t1; e; f; g]
  | _ => v
  end.

Definition compress (h : list Z) (block : bytes) : list Z :=
  let v := fold_left round (combine K (schedule block)) h in
  map (fun p => add32 (fst p) (snd p)) (combine h v).

(** [sha256.Sum256], as the slice of its 32 bytes. *)
Definition Sum256 (data : bytes) : bytes :=
  let p := pad data in
  let h := fold_left compress (chunks (List.length p) 64 p) H0 in
  flat_map (be_bytes 4) h.

End sha256.

(** The checksum chezmoi keeps of a content: [sha256Sum]. *)
Definition sha256Sum (data : bytes) : bytes := sha256.Sum256 data.
Arguments sha256Sum : simpl never.
Arguments bytes_eqb : simpl never.
Arguments bytes_of_string : simpl never.

(** ** bytes.TrimSpace and isEmpty *)

Module unicode.

(** The UTF-8 encodings of the runes [unicode.IsSpace] accepts: the six
    ASCII ones, U+0085, U+00A0, U+1680, U+2000 to U+200A, U+2028, U+2029,
    U+202F, U+205F and U+3000. *)
Definition isSpaceEncoding (enc : list Z) : bool :=
  match enc with
  | [c] => ((9 <=? c) && (c <=? 13)) || (c =? 32)
  | [0xc2; c] => (c =? 0x85) || (c =? 0xa0)
  | [0xe1; 0x9a; 0x80] => true
  | [0xe2; 0x80; c] =>
      ((0x80 <=? c) && (c <=? 0x8a)) || (c =? 0xa8) || (c =? 0xa9) || (c =? 0xaf)
  | [0xe2; 0x81; 0x9f] => true
  | [0xe3; 0x80; 0x80] => true
  | _ => false
  end.

End unicode.

(** The width in bytes of the white-space rune [s] starts with, 0 when it
    starts with none. UTF-8 is prefix-free, so at most one width fits. *)
Definition leadingSpace (s : bytes) : nat :=
  let enc n := map byte_to_Z (firstn n s) in
  if unicode.isSpaceEncoding (enc 1%nat) then 1
  else if unicode.isSpaceEncoding (enc 2%nat) then 2
  else if unicode.isSpaceEncoding (enc 3%nat) then 3
  else 0.

Fixpoint trimLeft (fuel : nat) (s : bytes) : bytes :=
  match fuel with
  | O => s
  | S f =>
      match leadingSpace s with
      | O => s
      | n => trimLeft f (skipn n s)
      end
  end.

(** The same from the end of [s], where [r] is [s] reversed. *)
Definition trailingSpace (r : bytes) : nat :=
  let enc n := map byte_to_Z (rev (firstn n r)) in
  if unicode.isSpaceEncoding (enc 1%nat) then 1
  else if unicode.isSpaceEncoding (enc 2%nat) then 2
  else if unicode.isSpaceEncoding (enc 3%nat) then 3
  else 0.

Fixpoint trimRight (fuel : nat) (r : bytes) : bytes :=
  match fuel with
  | O => r
  | S f =>
      match trailingSpace r with
      | O => r
      | n => trimRight f (skipn n r)
      end
  end.

(** [bytes.TrimSpace]: the slice without its leading and trailing white
    space, as Unicode defines it. *)
Definition bytes_TrimSpace (s : bytes) : bytes :=
  let l := trimLeft (List.length s) s in
  rev (trimRight (List.length l) (rev l)).

Definition isEmpty (data : bytes) : bool :=
  (List.length (bytes_TrimSpace data) =? 0)%nat.

Arguments isEmpty : simpl never.

(** ** Errors, file modes, time *)

(** A Go [error] value that is not nil. *)
Definition error := string.

(** The result of a fallible call: [Ok v] for [(v, nil)], [Err e] for an
    error [e] that is not nil. *)
Inductive Result (A : Type) : Type :=
| Ok (a : A)
| Err (e : error).
Arguments Ok {A} a.
Arguments Err {A} e.

(** [os.FileMode], an unsigned 32-bit integer. *)
Definition FileMode := N.

(** A [time.Time], as an instant counted from the zero time. *)
Definition Time := Z.
Definition zeroTime : Time := 0.

(** ** The System interface *)

(** Modelled from the spec: the interface [System], declared outside
    targetstateentry.go, with the methods the target states call and the
    arguments they are called with. Each method acts on the state [St] of the
    outside world and returns its Go results; [None] is the nil error, and
    [Get] returns its value (nil when there is none) together with its
    error. *)
Class System (St : Type) : Type := {
  Chmod : string -> FileMode -> St -> option error * St;
  Get : bytes -> bytes -> St -> (option bytes * option error) * St;
  Mkdir : string -> FileMode -> St -> option error * St;
  RemoveAll : string -> St -> option error * St;
  RunScript : string -> bytes -> St -> option error * St;
  Set_ : bytes -> bytes -> bytes -> St -> option error * St;
  WriteFile : string -> bytes -> FileMode -> St -> option error * St;
  WriteSymlink : string -> string -> St -> option error * St
}.

(** One call on the System, with its arguments and with what it returned. *)
Inductive Event : Type :=
| EvChmod (name : string) (mode : FileMode) (err : option error)
| EvGet (bucket key : bytes) (value : option bytes) (err : option error)
| EvMkdir (name : string) (perm : FileMode) (err : option error)
| EvRemoveAll (name : string) (err : option error)
| EvRunScript (name : string) (data : bytes) (err : option error)
| EvSet (bucket key value : bytes) (err : option error)
| EvWriteFile (name : string) (data : bytes) (perm : FileMode) (err : option error)
| EvWriteSymlink (oldname newname : string) (err : option error).

(** The calls that change the file system. *)
Definition isMutation (ev : Event) : bool :=
  match ev with
  | EvChmod _ _ _ | EvMkdir _ _ _ | EvRemoveAll _ _
  | EvWriteFile _ _ _ _ | EvWriteSymlink _ _ _ => true
  | _ => false
  end.

Definition isRemoveAll (ev : Event) : bool :=
  match ev with EvRemoveAll _ _ => true | _ => false end.
Definition isWriteFile (ev : Event) : bool :=
  match ev with EvWriteFile _ _ _ _ => true | _ => false end.
Definition isChmod (ev : Event) : bool :=
  match ev with EvChmod _ _ _ => true | _ => false end.
Definition isRunScript (ev : Event) : bool :=
  match ev with EvRunScript _ _ _ => true | _ => false end.
Definition isGet (ev : Event) : bool :=
  match ev with EvGet _ _ _ _ => true | _ => false end.
Definition isSet (ev : Event) : bool :=
  match ev with EvSet _ _ _ _ => true | _ => false end.

Definition count (p : Event -> bool) (evs : list Event) : nat :=
  List.length (filter p evs).

(** ** Lazy contents and link names *)

(** Modelled from the spec: [lazyContents] and [lazyLinkname], which
    targetstateentry.go embeds but does not define. A lazy value holds the
    source it is computed from, here by what reading that source yields; it
    is computed on demand, at most once for an entry, and its checksum is
    derived from the content. *)
Record lazyContents : Type := { contentsFunc : Result bytes }.
Record lazyLinkname : Type := { linknameFunc : Result string }.

(** The two entries of a reconciliation call, each with its own lazy
    value. *)
Inductive Cell : Type := TargetCell | DestCell.

(** ** Destination states *)

(** Modelled from the spec: the destination states, which
    targetstateentry.go uses (their [Path], [Remove], [perm],
    [ContentsSHA256] and [Linkname]) but does not define: absent, directory
    with its permissions, file with its permissions and lazily computed
    checksum, symlink with its link target, each with its path. *)
Module DestStateAbsent.
Record t : Type := { path : string }.
End DestStateAbsent.

Module DestStateDir.
Record t : Type := { path : string; perm : FileMode }.
End DestStateDir.

Module DestStateFile.
Record t : Type := { path : string; perm : FileMode; contents : lazyContents }.
End DestStateFile.

Module DestStateSymlink.
Record t : Type := { path : string; linkname : lazyLinkname }.
End DestStateSymlink.

Inductive DestStateEntry : Type :=
| DestAbsent (d : DestStateAbsent.t)
| DestDir (d : DestStateDir.t)
| DestFile (d : DestStateFile.t)
| DestSymlink (d : DestStateSymlink.t).

Definition Path (d : DestStateEntry) : string :=
  match d with
  | DestAbsent d => DestStateAbsent.path d
  | DestDir d => DestStateDir.path d
  | DestFile d => DestStateFile.path d
  | DestSymlink d => DestStateSymlink.path d
  end.

Definition isDestAbsent (d : DestStateEntry) : bool :=
  match d with DestAbsent _ => true | _ => false end.
Definition isDestFile (d : DestStateEntry) : bool :=
  match d with DestFile _ => true | _ => false end.

(** ** Target states *)

Module TargetStateAbsent.
Record t : Type := { }.
End TargetStateAbsent.

Module TargetStateDir.
Record t : Type := { perm : FileMode; exact : bool }.
End TargetStateDir.

Module TargetStateFile.
Record t : Type := { contents : lazyContents; perm : FileMode }.
End TargetStateFile.

Module TargetStateScript.
Record t : Type := { contents : lazyContents; name : string; once : bool }.
End TargetStateScript.

Module TargetStateSymlink.
Record t : Type := { linkname : lazyLinkname }.
End TargetStateSymlink.

(** A value of the interface [TargetStateEntry] is one of the five. *)
Inductive TargetStateEntry : Type :=
| TargetAbsent (t : TargetStateAbsent.t)
| TargetDir (t : TargetStateDir.t)
| TargetFile (t : TargetStateFile.t)
| TargetScript (t : TargetStateScript.t)
| TargetSymlink (t : TargetStateSymlink.t).

Definition isTargetScript (t : TargetStateEntry) : bool :=
  match t with TargetScript _ => true | _ => false end.

(** The record kept of a script that is run only once. *)
Record scriptOnceState : Type := { Name : string; ExecutedAt : Time }.

(** The ledger key the specification gives a once-script: its name, a colon,
    and the SHA-256 of its content in hexadecimal. *)
Definition onceKey (name : string) (contents : bytes) : bytes :=
  bytes_of_string (name ++ ":" ++ hex.EncodeToString (sha256.Sum256 contents)).

(** ** Reading a trace *)

(** The error a recorded call returned, nil or not. *)
Definition failure (ev : Event) : option error :=
  match ev with
  | EvChmod _ _ err | EvMkdir _ _ err | EvRemoveAll _ err
  | EvRunScript _ _ err | EvWriteFile _ _ _ err | EvWriteSymlink _ _ err
  | EvGet _ _ _ err | EvSet _ _ _ err => err
  end.

(** The path a call on the file system acts on; a symlink is written at its
    new name. *)
Definition touched (ev : Event) : option string :=
  match ev with
  | EvChmod name _ _ | EvMkdir name _ _ | EvRemoveAll name _
  | EvWriteFile name _ _ _ => Some name
  | EvWriteSymlink _ newname _ => Some newname
  | EvGet _ _ _ _ | EvSet _ _ _ _ | EvRunScript _ _ _ => None
  end.

Definition isDestDir (d : DestStateEntry) : bool :=
  match d with DestDir _ => true | _ => false end.
Definition isDestSymlink (d : DestStateEntry) : bool :=
  match d with DestSymlink _ => true | _ => false end.

Definition isMkdir (ev : Event) : bool :=
  match ev with EvMkdir _ _ _ => true | _ => false end.
Definition isWriteSymlink (ev : Event) : bool :=
  match ev with EvWriteSymlink _ _ _ => true | _ => false end.

(** The error of the lazy value a destination carries, when it has one that
    fails. *)
Definition destError (d : DestStateEntry) : option error :=
  match d with
  | DestFile f =>
      match contentsFunc (DestStateFile.contents f) with
      | Err e => Some e
      | Ok _ => None
      end
  | DestSymlink l =>
      match linknameFunc (DestStateSymlink.linkname l) with
      | Err e => Some e
      | Ok _ => None
      end
  | DestAbsent _ | DestDir _ => None
  end.

(** The six bytes [bytes.TrimSpace] takes for white space below 0x80. *)
Definition asciiSpace (b : byte) : bool :=
  let c := byte_to_Z b in ((9 <=? c) && (c <=? 13)) || (c =? 32).

Definition isASCII (b : byte) : bool := byte_to_Z b <? 128.

(** The bytes an encoding of a white-space rune can hold. *)
Definition spaceByte (b : byte) : bool := asciiSpace b || negb (isASCII b).

(** The value of a hexadecimal digit and the bytes a string of such digits
    stands for: what reads [hex.EncodeToString] back. *)
Definition hexValue (c : ascii) : Z :=
  match index 0 (String c EmptyString) hex.hextable with
  | Some n => Z.of_nat n
  | None => 0
  end.

Fixpoint hexDecode (s : string) : bytes :=
  match s with
  | String h (String l rest) =>
      byte_of_Z (16 * hexValue h + hexValue l) :: hexDecode rest
  | _ => []
  end.

(** The key of a call on the ledger. *)
Definition ledgerKey (ev : Event) : option bytes :=
  match ev with
  | EvGet _ key _ _ | EvSet _ key _ _ => Some key
  | _ => None
  end.

(** ** A System in memory

    A file system and a ledger held in memory, which records the scripts it
    runs and fails where it is told to: the System the examples run on. *)

Module MemSystem.

Inductive Op : Type :=
| OpChmod | OpGet | OpMkdir | OpRemoveAll
| OpRunScript | OpSet | OpWriteFile | OpWriteSymlink.

Definition Op_eqb (a b : Op) : bool :=
  match a, b with
  | OpChmod, OpChmod | OpGet, OpGet | OpMkdir, OpMkdir
  | OpRemoveAll, OpRemoveAll | OpRunScript, OpRunScript | OpSet, OpSet
  | OpWriteFile, OpWriteFile | OpWriteSymlink, OpWriteSymlink => true
  | _, _ => false
  end.

Inductive Node : Type :=
| Dir (perm : FileMode)
| File (data : bytes) (perm : FileMode)
| Symlink (target : string).

Record t : Type := mk {
  fs : list (string * Node);
  ledger : list (bytes * bytes * bytes);
  executed : list (string * bytes);
  clock : Time;
  faults : list (Op * error)
}.

Definition fault (op : Op) (s : t) : option error :=
  match find (fun f => Op_eqb op (fst f)) (faults s) with
  | Some f => Some (snd f)
  | None => None
  end.

Definition lookup (name : string) (s : t) : option Node :=
  match find (fun e => String.eqb name (fst e)) (fs s) with
  | Some e => Some (snd e)
  | None => None
  end.

Definition without (name : string) (l : list (string * Node))
  : list (string * Node) :=
  filter (fun e => negb (String.eqb name (fst e))) l.

Definition with_fs (s : t) (l : list (string * Node)) : t :=
  mk l (ledger s) (executed s) (clock s) (faults s).

(** The entry at [name] and the entries below it. *)
Definition under (name : string) (e : string * Node) : bool :=
  String.eqb name (fst e) || String.prefix (name ++ "/") (fst e).

Definition guarded (op : Op) (s : t) (k : option error * t)
  : option error * t :=
  match fault op s with
  | Some e => (Some e, s)
  | None => k
  end.

Definition chmod (name : string) (mode : FileMode) (s : t) : option error * t :=
  guarded OpChmod s
    match lookup name s with
    | Some (Dir _) => (None, with_fs s ((name, Dir mode) :: without name (fs s)))
    | Some (File data _) =>
        (None, with_fs s ((name, File data mode) :: without name (fs s)))
    | Some (Symlink _) => (None, s)
    | None => (Some "no such file or directory"%string, s)
    end.

Definition mkdir (name : string) (perm : FileMode) (s : t) : option error * t :=
  guarded OpMkdir s
    match lookup name s with
    | Some _ => (Some "file exists"%string, s)
    | None => (None, with_fs s ((name, Dir perm) :: fs s))
    end.

Definition removeAll (name : string) (s : t) : option error * t :=
  guarded OpRemoveAll s
    (None, with_fs s (filter (fun e => negb (under name e)) (fs s))).

Definition writeFile (name : string) (data : bytes) (perm : FileMode) (s : t)
  : option error * t :=
  guarded OpWriteFile s
    match lookup name s with
    | Some (Dir _) => (Some "is a directory"%string, s)
    | _ => (None, with_fs s ((name, File data perm) :: without name (fs s)))
    end.

Definition writeSymlink (oldname newname : string) (s : t) : option error * t :=
  guarded OpWriteSymlink s
    match lookup newname s with
    | Some _ => (Some "file exists"%string, s)
    | None => (None, with_fs s ((newname, Symlink oldname) :: fs s))
    end.

(** Running a script takes a unit of time. *)
Definition runScript (name : string) (data : bytes) (s : t) : option error * t :=
  guarded OpRunScript s
    (None, mk (fs s) (ledger s) (executed s ++ [(name, data)]) (clock s + 1)
              (faults s)).

Definition sameKey (bucket key : bytes) (r : bytes * bytes * bytes) : bool :=
  bytes_eqb bucket (fst (fst r)) && bytes_eqb key (snd (fst r)).

Definition get (bucket key : bytes) (s : t) : (option bytes * option error) * t :=
  match fault OpGet s with
  | Some e => (None, Some e, s)
  | None =>
      match find (sameKey bucket key) (ledger s) with
      | Some r => (Some (snd r), None, s)
      | None => (None, None, s)
      end
  end.

Definition set (bucket key value : bytes) (s : t) : option error * t :=
  guarded OpSet s
    (None, mk (fs s)
              ((bucket, key, value)
                 :: filter (fun r => negb (sameKey bucket key r)) (ledger s))
              (executed s) (clock s) (faults s)).

#[global] Instance system : System t := {
  Chmod := chmod;
  Get := get;
  Mkdir := mkdir;
  RemoveAll := removeAll;
  RunScript := runScript;
  Set_ := set;
  WriteFile := writeFile;
  WriteSymlink := writeSymlink
}.

(** A rendering of the record, name first. *)
Definition marshal (r : scriptOnceState) : Result bytes :=
  Ok (bytes_of_string
        ("{name:" ++ Name r ++ ",executedAt:"
         ++ DecimalString.NilZero.string_of_int (Z.to_int (ExecutedAt r))
         ++ "}")).

Definition bucket : bytes := bytes_of_string "script".

Definition empty : t := mk [] [] [] 1000 [].

Definition failing (op : Op) (e : error) (s : t) : t :=
  mk (fs s) (ledger s) (executed s) (clock s) ((op, e) :: faults s).

End MemSystem.

(** ** Entries and systems of the examples *)

Module Sample.

(** The mode written [0ugo] in octal. *)
Definition mode (u g o : N) : FileMode := (u * 64 + g * 8 + o)%N.

(** A once-script, and the one of the specification's examples. *)
Definition setup : TargetStateScript.t :=
  {| TargetStateScript.contents :=
       {| contentsFunc := Ok (bytes_of_string "echo hi") |};
     TargetStateScript.name := "setup";
     TargetStateScript.once := true |}.

Definition setupKey : bytes :=
  bytes_of_string
    "setup:56a79f3b115448072387c2480044bfa2cf8f90e4f5fddd8c943b4e051b81f80b".

Definition setupRecord : bytes :=
  bytes_of_string "{name:setup,executedAt:1000}".

(** Three spaces, a line feed and a tab. *)
Definition whitespace : bytes := [x20; x20; x20; x0a; x09].

Definition blank : TargetStateScript.t :=
  {| TargetStateScript.contents := {| contentsFunc := Ok whitespace |};
     TargetStateScript.name := "blank";
     TargetStateScript.once := true |}.

Definition blankAlways : TargetStateScript.t :=
  {| TargetStateScript.contents := {| contentsFunc := Ok whitespace |};
     TargetStateScript.name := "blank";
     TargetStateScript.once := false |}.

Definition motd : TargetStateScript.t :=
  {| TargetStateScript.contents :=
       {| contentsFunc := Ok (bytes_of_string "cat /etc/motd") |};
     TargetStateScript.name := "motd";
     TargetStateScript.once := false |}.

(** A file of mode 0600, and destinations at its path. *)
Definition bashrcPath : string := "/home/user/.bashrc".
Definition newContents : bytes := bytes_of_string "export EDITOR=vi".
Definition oldContents : bytes := bytes_of_string "export EDITOR=ed".

Definition bashrc : TargetStateFile.t :=
  {| TargetStateFile.contents := {| contentsFunc := Ok newContents |};
     TargetStateFile.perm := mode 6 0 0 |}.

Definition destFile (contents : bytes) (perm : FileMode) : DestStateFile.t :=
  {| DestStateFile.path := bashrcPath;
     DestStateFile.perm := perm;
     DestStateFile.contents := {| contentsFunc := Ok contents |} |}.

Definition destAbsent : DestStateEntry :=
  DestAbsent {| DestStateAbsent.path := bashrcPath |}.

Definition destDir : DestStateEntry :=
  DestDir {| DestStateDir.path := bashrcPath; DestStateDir.perm := mode 7 5 5 |}.

Definition destSymlink (target : string) : DestStateEntry :=
  DestSymlink {| DestStateSymlink.path := bashrcPath;
                 DestStateSymlink.linkname := {| linknameFunc := Ok target |} |}.

(** The System that holds [node] at the path. *)
Definition holding (node : MemSystem.Node) : MemSystem.t :=
  MemSystem.mk [(bashrcPath, node)] [] [] 1000 [].

Definition dirExact (exact : bool) : TargetStateDir.t :=
  {| TargetStateDir.perm := mode 7 5 5; TargetStateDir.exact := exact |}.


(** A symlink target, and targets whose lazy value cannot be read. *)
Definition passwd : TargetStateSymlink.t :=
  {| TargetStateSymlink.linkname := {| linknameFunc := Ok "/etc/passwd"%string |} |}.

Definition brokenLink : TargetStateSymlink.t :=
  {| TargetStateSymlink.linkname :=
       {| linknameFunc := Err "readlink: permission denied"%string |} |}.

Definition unreadable : TargetStateFile.t :=
  {| TargetStateFile.contents :=
       {| contentsFunc := Err "open: permission denied"%string |};
     TargetStateFile.perm := mode 6 0 0 |}.

(** A script that is a shebang line and nothing else. *)
Definition shebang : bytes := bytes_of_string "#!/bin/sh" ++ [x0a].

(** A once-script of the same content as [setup] under another name, which
    holds a colon. *)
Definition setupAgain : TargetStateScript.t :=
  {| TargetStateScript.contents :=
       {| contentsFunc := Ok (bytes_of_string "echo hi") |};
     TargetStateScript.name := "setup:again";
     TargetStateScript.once := true |}.

End Sample.

(** ** Reconciliation *)

Section Reconcile.

(** The outside world and its [System]. *)
Context {St : Type} `{Sys : System St}.

(** The clock [time.Now] reads. *)
Variable time_Now : St -> Time.

(** [json.Marshal] on a [scriptOnceState]. *)
Variable json_Marshal : scriptOnceState -> Result bytes.

(** The name of the bucket that holds the records of once-scripts, a
    constant declared outside targetstateentry.go. *)
Variable scriptOnceStateBucket : bytes.

(** *** The monad of a method call

    A call runs in a world: the state of the System, and the lazy values
    asked for so far, the latest first. It returns a result or an error, the
    world it leaves, and the System calls it made, in order. *)
Record World : Type := mkWorld { sys : St; forced : list Cell }.

Record Run (A : Type) : Type :=
  mkRun { result : Result A; after : World; calls : list Event }.
Arguments mkRun {A}.
Arguments result {A}.
Arguments after {A}.
Arguments calls {A}.

Definition M (A : Type) : Type := World -> Run A.

Definition ret {A} (a : A) : M A := fun w => mkRun (Ok a) w [].

(** Sequencing with Go's [if err != nil { return err }]. *)
Definition bind {A B} (m : M A) (k : A -> M B) : M B :=
  fun w =>
    let r := m w in
    match result r with
    | Ok a =>
        let r' := k a (after r) in
        mkRun (result r') (after r') (calls r ++ calls r')
    | Err e => mkRun (Err e) (after r) (calls r)
    end.

(** A call whose error the caller inspects itself. *)
Definition try {A} (m : M A) : M (Result A) :=
  fun w => let r := m w in mkRun (Ok (result r)) (after r) (calls r).

Definition lift {A} (r : Result A) : M A := fun w => mkRun r w [].

Notation "x <- m ;; k" := (bind m (fun x => k))
  (at level 61, m at next level, right associativity).
Notation "' pat <- m ;; k" := (bind m (fun x => match x with pat => k end))
  (at level 61, pat pattern, m at next level, right associativity).
Notation "m ;; k" := (bind m (fun _ => k))
  (at level 61, right associativity).

Definition ofErr (err : option error) : Result unit :=
  match err with
  | None => Ok tt
  | Some e => Err e
  end.

(** A System call, recorded. *)
Definition call (op : St -> option error * St) (ev : option error -> Event)
  : M unit :=
  fun w =>
    let '(err, s) := op (sys w) in
    mkRun (ofErr err) (mkWorld s (forced w)) [ev err].

Definition s_Chmod (name : string) (mode : FileMode) : M unit :=
  call (Chmod name mode) (EvChmod name mode).
Definition s_Mkdir (name : string) (perm : FileMode) : M unit :=
  call (Mkdir name perm) (EvMkdir name perm).
Definition s_RemoveAll (name : string) : M unit :=
  call (RemoveAll name) (EvRemoveAll name).
Definition s_RunScript (name : string) (data : bytes) : M unit :=
  call (RunScript name data) (EvRunScript name data).
Definition s_Set (bucket key value : bytes) : M unit :=
  call (Set_ bucket key value) (EvSet bucket key value).
Definition s_WriteFile (name : string) (data : bytes) (perm : FileMode) : M unit :=
  call (WriteFile name data perm) (EvWriteFile name data perm).
Definition s_WriteSymlink (oldname newname : string) : M unit :=
  call (WriteSymlink oldname newname) (EvWriteSymlink oldname newname).

Definition s_Get (bucket key : bytes) : M (option bytes) :=
  fun w =>
    let '(value, err, s) := Get bucket key (sys w) in
    mkRun (match err with
           | None => Ok value
           | Some e => Err e
           end)
          (mkWorld s (forced w)) [EvGet bucket key value err].

Definition now : M Time :=
  fun w => mkRun (Ok (time_Now (sys w))) w [].

(** *** Lazy values *)

(** Asking for the lazy value of [c]: it is computed the first time, and
    read from its cache afterwards. *)
Definition force (c : Cell) (w : World) : World :=
  mkWorld (sys w) (c :: forced w).

Definition Contents (c : Cell) (lc : lazyContents) : M bytes :=
  fun w => mkRun (contentsFunc lc) (force c w) [].

Definition ContentsSHA256 (c : Cell) (lc : lazyContents) : M bytes :=
  fun w =>
    mkRun (match contentsFunc lc with
           | Ok contents => Ok (sha256Sum contents)
           | Err e => Err e
           end)
          (force c w) [].

Definition Linkname (c : Cell) (ll : lazyLinkname) : M string :=
  fun w => mkRun (linknameFunc ll) (force c w) [].

(** *** Removing a destination *)

(** Modelled from the spec: [Remove] of a destination state, which
    targetstateentry.go calls but does not define: whatever exists at the
    path is removed, unless the destination is absent already. *)
Definition Remove (d : DestStateEntry) : M unit :=
  match d with
  | DestAbsent _ => ret tt
  | _ => s_RemoveAll (Path d)
  end.

(** *** TargetStateAbsent *)

Definition TargetStateAbsent_Apply (t : TargetStateAbsent.t)
    (destStateEntry : DestStateEntry) : M unit :=
  match destStateEntry with
  | DestAbsent _ => ret tt
  | _ => s_RemoveAll (Path destStateEntry)
  end.

Definition TargetStateAbsent_Equal (t : TargetStateAbsent.t)
    (destStateEntry : DestStateEntry) : M bool :=
  match destStateEntry with
  | DestAbsent _ => ret true
  | _ => ret false
  end.

Definition TargetStateAbsent_Evaluate (t : TargetStateAbsent.t) : M unit :=
  ret tt.

(** *** TargetStateDir *)

Definition TargetStateDir_Apply (t : TargetStateDir.t)
    (destStateEntry : DestStateEntry) : M unit :=
  match destStateEntry with
  | DestDir destStateDir =>
      if (DestStateDir.perm destStateDir =? TargetStateDir.perm t)%N
      then ret tt
      else s_Chmod (DestStateDir.path destStateDir) (TargetStateDir.perm t)
  | _ =>
      Remove destStateEntry ;;
      s_Mkdir (Path destStateEntry) (TargetStateDir.perm t)
  end.

Definition TargetStateDir_Equal (t : TargetStateDir.t)
    (destStateEntry : DestStateEntry) : M bool :=
  match destStateEntry with
  | DestDir destStateDir =>
      ret (DestStateDir.perm destStateDir =? TargetStateDir.perm t)%N
  | _ => ret false
  end.

Definition TargetStateDir_Evaluate (t : TargetStateDir.t) : M unit :=
  ret tt.

(** *** TargetStateFile *)

(** The first part of [Apply] either returns ([true]) or falls through to
    the write ([false]). *)
Definition TargetStateFile_Apply (t : TargetStateFile.t)
    (destStateEntry : DestStateEntry) : M unit :=
  returned <-
    match destStateEntry with
    | DestFile destStateFile =>
        destContentsSHA256 <-
          ContentsSHA256 DestCell (DestStateFile.contents destStateFile) ;;
        contentsSHA256 <-
          ContentsSHA256 TargetCell (TargetStateFile.contents t) ;;
        if bytes_eqb destContentsSHA256 contentsSHA256 then
          (if (DestStateFile.perm destStateFile =? TargetStateFile.perm t)%N
           then ret tt
           else s_Chmod (DestStateFile.path destStateFile)
                        (TargetStateFile.perm t)) ;;
          ret true
        else ret false
    | _ => Remove destStateEntry ;; ret false
    end ;;
  if returned : bool then ret tt
  else
    contents <- Contents TargetCell (TargetStateFile.contents t) ;;
    s_WriteFile (Path destStateEntry) contents (TargetStateFile.perm t).

Definition TargetStateFile_Equal (t : TargetStateFile.t)
    (destStateEntry : DestStateEntry) : M bool :=
  match destStateEntry with
  | DestFile destStateFile =>
      if negb (DestStateFile.perm destStateFile =? TargetStateFile.perm t)%N
      then ret false
      else
        destContentsSHA256 <-
          ContentsSHA256 DestCell (DestStateFile.contents destStateFile) ;;
        contentsSHA256 <-
          ContentsSHA256 TargetCell (TargetStateFile.contents t) ;;
        ret (bytes_eqb destContentsSHA256 contentsSHA256)
  | _ => ret false
  end.

Definition TargetStateFile_Evaluate (t : TargetStateFile.t) : M unit :=
  _ <- ContentsSHA256 TargetCell (TargetStateFile.contents t) ;;
  ret tt.

(** *** TargetStateScript *)

(** The first part of [Apply] returns ([true]) when the ledger holds a
    record for the script, and otherwise leaves [key] and [executedAt],
    which keep Go's zero values when [once] is not set. *)
Definition TargetStateScript_Apply (t : TargetStateScript.t)
    (destStateEntry : DestStateEntry) : M unit :=
  let bucket := scriptOnceStateBucket in
  '(returned, key, executedAt) <-
    (if TargetStateScript.once t then
       contentsSHA256 <-
         ContentsSHA256 TargetCell (TargetStateScript.contents t) ;;
       let key :=
         bytes_of_string (TargetStateScript.name t ++ ":"
                          ++ hex.EncodeToString contentsSHA256) in
       scriptOnceState <- s_Get bucket key ;;
       match scriptOnceState with
       | Some _ => ret (true, key, zeroTime)
       | None => executedAt <- now ;; ret (false, key, executedAt)
       end
     else ret (false, [], zeroTime)) ;;
  if returned : bool then ret tt
  else
    contents <- Contents TargetCell (TargetStateScript.contents t) ;;
    if isEmpty contents then ret tt
    else
      s_RunScript (TargetStateScript.name t) contents ;;
      if TargetStateScript.once t then
        value <- lift (json_Marshal {| Name := TargetStateScript.name t;
                                       ExecutedAt := executedAt |}) ;;
        s_Set bucket key value
      else ret tt.

Definition TargetStateScript_Equal (t : TargetStateScript.t)
    (destStateEntry : DestStateEntry) : M bool :=
  ret true.

Definition TargetStateScript_Evaluate (t : TargetStateScript.t) : M unit :=
  _ <- ContentsSHA256 TargetCell (TargetStateScript.contents t) ;;
  ret tt.

(** *** TargetStateSymlink *)

Definition TargetStateSymlink_Apply (t : TargetStateSymlink.t)
    (destStateEntry : DestStateEntry) : M unit :=
  returned <-
    match destStateEntry with
    | DestSymlink destStateSymlink =>
        destLinkname <-
          Linkname DestCell (DestStateSymlink.linkname destStateSymlink) ;;
        linkname <- Linkname TargetCell (TargetStateSymlink.linkname t) ;;
        ret (String.eqb destLinkname linkname)
    | _ => ret false
    end ;;
  if returned : bool then ret tt
  else
    linkname <- Linkname TargetCell (TargetStateSymlink.linkname t) ;;
    Remove destStateEntry ;;
    s_WriteSymlink linkname (Path destStateEntry).

(** An error of the target's own link name makes [Equal] return
    [false, nil]. *)
Definition TargetStateSymlink_Equal (t : TargetStateSymlink.t)
    (destStateEntry : DestStateEntry) : M bool :=
  match destStateEntry with
  | DestSymlink destStateSymlink =>
      destLinkname <-
        Linkname DestCell (DestStateSymlink.linkname destStateSymlink) ;;
      linkname <- try (Linkname TargetCell (TargetStateSymlink.linkname t)) ;;
      match linkname with
      | Err _ => ret false
      | Ok linkname => ret (String.eqb destLinkname linkname)
      end
  | _ => ret false
  end.

Definition TargetStateSymlink_Evaluate (t : TargetStateSymlink.t) : M unit :=
  _ <- Linkname TargetCell (TargetStateSymlink.linkname t) ;;
  ret tt.

(** *** The interface *)

Definition Apply (t : TargetStateEntry) (d : DestStateEntry) : M unit :=
  match t with
  | TargetAbsent t => TargetStateAbsent_Apply t d
  | TargetDir t => TargetStateDir_Apply t d
  | TargetFile t => TargetStateFile_Apply t d
  | TargetScript t => TargetStateScript_Apply t d
  | TargetSymlink t => TargetStateSymlink_Apply t d
  end.

Definition Equal (t : TargetStateEntry) (d : DestStateEntry) : M bool :=
  match t with
  | TargetAbsent t => TargetStateAbsent_Equal t d
  | TargetDir t => TargetStateDir_Equal t d
  | TargetFile t => TargetStateFile_Equal t d
  | TargetScript t => TargetStateScript_Equal t d
  | TargetSymlink t => TargetStateSymlink_Equal t d
  end.

Definition Evaluate (t : TargetStateEntry) : M unit :=
  match t with
  | TargetAbsent t => TargetStateAbsent_Evaluate t
  | TargetDir t => TargetStateDir_Evaluate t
  | TargetFile t => TargetStateFile_Evaluate t
  | TargetScript t => TargetStateScript_Evaluate t
  | TargetSymlink t => TargetStateSymlink_Evaluate t
  end.

(** *** Properties *)

Lemma bytes_eqb_eq (a b : bytes) : bytes_eqb a b = true <-> a = b.
Proof.
  unfold bytes_eqb. destruct (list_eq_dec Byte.byte_eq_dec a b); split;
    intros; congruence.
Qed.

Lemma bytes_eqb_refl (a : bytes) : bytes_eqb a a = true.
Proof. now apply bytes_eqb_eq. Qed.

Ltac unfold_calls :=
  unfold s_Chmod, s_Mkdir, s_RemoveAll, s_RunScript, s_Set, s_WriteFile,
    s_WriteSymlink, s_Get, call, now, Contents, ContentsSHA256, Linkname,
    lift, try, bind, ret in *.

(** C7: when the destination is a File whose checksum is the target's,
    [Apply] makes exactly one Chmod call and no WriteFile call if the
    permissions differ, and no System call at all if they are the same. *)
Theorem File_Apply_same_checksum
    (t : TargetStateFile.t) (f : DestStateFile.t) (w : World) (c c' : bytes) :
  contentsFunc (TargetStateFile.contents t) = Ok c ->
  contentsFunc (DestStateFile.contents f) = Ok c' ->
  sha256Sum c' = sha256Sum c ->
  let r := TargetStateFile_Apply t (DestFile f) w in
  (DestStateFile.perm f <> TargetStateFile.perm t ->
     count isChmod (calls r) = 1%nat /\ count isWriteFile (calls r) = 0%nat /\
     exists err,
       calls r = [EvChmod (DestStateFile.path f) (TargetStateFile.perm t) err]
       /\ result r = ofErr err)
  /\ (DestStateFile.perm f = TargetStateFile.perm t ->
        calls r = [] /\ result r = Ok tt /\ sys (after r) = sys w).
Proof.
  intros Ht Hf Hsum r. subst r. unfold TargetStateFile_Apply.
  split; intros Hperm.
  - apply N.eqb_neq in Hperm.
    unfold_calls. cbn. rewrite Ht, Hf, Hsum. cbn.
    rewrite bytes_eqb_refl, Hperm. cbn.
    destruct (Chmod _ _ _) as [[e|] s]; cbn; repeat split; eauto.
  - apply N.eqb_eq in Hperm.
    unfold_calls. cbn. rewrite Ht, Hf, Hsum. cbn.
    rewrite bytes_eqb_refl, Hperm. cbn.
    repeat split.
Qed.

(** C10: on a destination File whose permissions are not the target's,
    [Equal] returns false and a nil error, and computes neither checksum:
    no lazy value is asked for, and the world is left as it was. *)
Theorem File_Equal_perm_short_circuit
    (t : TargetStateFile.t) (f : DestStateFile.t) (w : World) :
  DestStateFile.perm f <> TargetStateFile.perm t ->
  let r := TargetStateFile_Equal t (DestFile f) w in
  result r = Ok false /\ forced (after r) = forced w /\ after r = w
  /\ calls r = [].
Proof.
  intros Hperm r. subst r. apply N.eqb_neq in Hperm.
  unfold TargetStateFile_Equal. rewrite Hperm. cbn. auto.
Qed.

(** C9: a script whose [once] is not set never reaches the ledger: [Apply]
    calls neither Get nor Set. *)
Theorem Script_Apply_not_once_no_ledger
    (t : TargetStateScript.t) (d : DestStateEntry) (w : World) :
  TargetStateScript.once t = false ->
  let r := TargetStateScript_Apply t d w in
  count isGet (calls r) = 0%nat /\ count isSet (calls r) = 0%nat.
Proof.
  intros Honce r. subst r. unfold TargetStateScript_Apply.
  rewrite Honce. unfold_calls. cbn.
  destruct (contentsFunc (TargetStateScript.contents t)) as [c|e]; cbn; auto.
  destruct (isEmpty c); cbn; auto.
  destruct (RunScript _ _ _) as [[e|] s]; cbn; auto.
Qed.

(** C8: the [exact] flag of a directory has no effect: two directories
    with the same permissions behave the same in [Apply], [Equal] and
    [Evaluate], whatever their flags. *)
Theorem Dir_exact_no_effect
    (t1 t2 : TargetStateDir.t) (d : DestStateEntry) (w : World) :
  TargetStateDir.perm t1 = TargetStateDir.perm t2 ->
  TargetStateDir_Apply t1 d w = TargetStateDir_Apply t2 d w
  /\ TargetStateDir_Equal t1 d w = TargetStateDir_Equal t2 d w
  /\ TargetStateDir_Evaluate t1 w = TargetStateDir_Evaluate t2 w.
Proof.
  intros Hperm.
  unfold TargetStateDir_Apply, TargetStateDir_Equal, TargetStateDir_Evaluate.
  rewrite Hperm. auto.
Qed.

(** C4: for an Absent, Dir, File or Symlink target, if [Equal] returns
    true then [Apply] succeeds and makes no call that changes the file
    system. *)
Theorem Equal_Apply_consistent
    (t : TargetStateEntry) (d : DestStateEntry) (w0 w : World) :
  isTargetScript t = false ->
  result (Equal t d w0) = Ok true ->
  let r := Apply t d w in
  result r = Ok tt /\ count isMutation (calls r) = 0%nat
  /\ sys (after r) = sys w.
Proof.
  intros Hkind Heq r. subst r.
  destruct t as [t|t|t|t|t]; try discriminate; cbn in *.
  - unfold TargetStateAbsent_Equal in Heq. unfold TargetStateAbsent_Apply.
    destruct d; cbn in *; try discriminate; auto.
  - unfold TargetStateDir_Equal in Heq. unfold TargetStateDir_Apply.
    destruct d as [d|d|d|d]; cbn in *; try discriminate.
    injection Heq as Heq. rewrite Heq. cbn. auto.
  - unfold TargetStateFile_Equal in Heq. unfold TargetStateFile_Apply.
    destruct d as [d|d|d|d]; cbn in *; try discriminate.
    destruct (DestStateFile.perm d =? TargetStateFile.perm t)%N eqn:Hperm;
      cbn in *; try discriminate.
    unfold_calls. cbn in *.
    destruct (contentsFunc (DestStateFile.contents d)) as [c'|e];
      cbn in *; try discriminate.
    destruct (contentsFunc (TargetStateFile.contents t)) as [c|e];
      cbn in *; try discriminate.
    injection Heq as Heq. rewrite Heq. cbn.
    auto.
  - unfold TargetStateSymlink_Equal in Heq. unfold TargetStateSymlink_Apply.
    destruct d as [d|d|d|d]; cbn in *; try discriminate.
    unfold_calls. cbn in *.
    destruct (linknameFunc (DestStateSymlink.linkname d)) as [l'|e];
      cbn in *; try discriminate.
    destruct (linknameFunc (TargetStateSymlink.linkname t)) as [l|e];
      cbn in *; try discriminate.
    injection Heq as Heq. rewrite Heq. cbn.
    auto.
Qed.

(** Walks through the events a run is said to contain. *)
Ltac in_calls :=
  repeat match goal with
         | H : In _ _ |- _ => cbn in H
         | H : _ \/ _ |- _ => destruct H
         | H : False |- _ => destruct H
         | H : @eq Event _ _ |- _ => inversion H; subst; clear H
         end.

(** C6: if the execution of the script fails, [Apply] returns that error
    and writes nothing to the ledger, [once] or not; and if the ledger write
    that follows a successful execution fails, [Apply] returns that error,
    the execution standing in the trace. *)
Theorem Script_Apply_failures
    (t : TargetStateScript.t) (d : DestStateEntry) (w : World) :
  let r := TargetStateScript_Apply t d w in
  (forall name data e,
      In (EvRunScript name data (Some e)) (calls r) ->
      result r = Err e /\ count isSet (calls r) = 0%nat)
  /\ (forall bucket key value e,
        In (EvSet bucket key value (Some e)) (calls r) ->
        TargetStateScript.once t = true /\ result r = Err e
        /\ exists data,
            contentsFunc (TargetStateScript.contents t) = Ok data
            /\ In (EvRunScript (TargetStateScript.name t) data None) (calls r)).
Proof.
  intros r. subst r. unfold TargetStateScript_Apply.
  destruct (TargetStateScript.once t) eqn:Honce;
    unfold_calls; cbn;
    destruct (contentsFunc (TargetStateScript.contents t)) as [c|e0] eqn:Hc;
    cbn; try solve [split; intros; in_calls].
  - destruct (Get _ _ _) as [[v [e0|]] s1]; cbn;
      try solve [split; intros; in_calls].
    destruct v as [v|]; cbn; try solve [split; intros; in_calls].
    destruct (isEmpty c); cbn; try solve [split; intros; in_calls].
    destruct (RunScript _ _ _) as [[e0|] s2]; cbn;
      try solve [split; intros; in_calls; auto].
    destruct (json_Marshal _) as [value|e0]; cbn;
      try solve [split; intros; in_calls].
    destruct (Set_ _ _ _ _) as [[e0|] s3]; cbn;
      split; intros; in_calls; eauto 8.
  - destruct (isEmpty c); cbn; try solve [split; intros; in_calls].
    destruct (RunScript _ _ _) as [[e0|] s2]; cbn;
      split; intros; in_calls; auto.
Qed.

(** C5, amended: a script whose content is empty once trimmed is never
    executed and never gets a ledger record. [Apply] returns success when
    [once] is not set; when it is set, [Apply] makes the ledger lookup only
    and returns success unless that lookup fails, whose error it returns. *)
Theorem Script_Apply_empty
    (t : TargetStateScript.t) (d : DestStateEntry) (w : World) (c : bytes) :
  contentsFunc (TargetStateScript.contents t) = Ok c ->
  isEmpty c = true ->
  let r := TargetStateScript_Apply t d w in
  count isRunScript (calls r) = 0%nat /\ count isSet (calls r) = 0%nat
  /\ (TargetStateScript.once t = false -> result r = Ok tt /\ calls r = [])
  /\ (TargetStateScript.once t = true ->
        exists value err,
          calls r = [EvGet scriptOnceStateBucket
                       (onceKey (TargetStateScript.name t) c) value err]
          /\ result r = ofErr err).
Proof.
  intros Hc Hempty r. subst r. unfold TargetStateScript_Apply, onceKey.
  fold (sha256Sum c).
  destruct (TargetStateScript.once t) eqn:Honce;
    unfold_calls; cbn; rewrite Hc; cbn.
  - destruct (Get _ _ _) as [[v [e0|]] s1]; cbn.
    + repeat split; try discriminate. intros _. eauto.
    + destruct v as [v|]; cbn; [| rewrite Hempty; cbn];
        (repeat split; try discriminate; intros _; eexists; exists None;
         split; reflexivity).
  - rewrite Hempty. cbn. repeat split; try discriminate; auto.
Qed.

(** The run of a once-script whose record is in the ledger. *)
Lemma once_run_skip
    (t : TargetStateScript.t) (d : DestStateEntry) (w : World) (c v : bytes)
    (s1 : St) :
  TargetStateScript.once t = true ->
  contentsFunc (TargetStateScript.contents t) = Ok c ->
  Get scriptOnceStateBucket (onceKey (TargetStateScript.name t) c) (sys w)
    = (Some v, None, s1) ->
  TargetStateScript_Apply t d w
  = mkRun (Ok tt) (mkWorld s1 (TargetCell :: forced w))
      [EvGet scriptOnceStateBucket (onceKey (TargetStateScript.name t) c)
         (Some v) None].
Proof.
  unfold onceKey. fold (sha256Sum c). intros Honce Hc Hget. cbn in Hget.
  unfold TargetStateScript_Apply. rewrite Honce. unfold_calls. cbn.
  rewrite Hc. cbn. rewrite Hget. reflexivity.
Qed.

(** The run of a once-script that has no record yet, is not empty and
    executes successfully. *)
Lemma once_run_exec
    (t : TargetStateScript.t) (d : DestStateEntry) (w : World)
    (c value : bytes) (s1 s2 s3 : St) (err : option error) :
  let name := TargetStateScript.name t in
  let key := onceKey name c in
  TargetStateScript.once t = true ->
  contentsFunc (TargetStateScript.contents t) = Ok c ->
  Get scriptOnceStateBucket key (sys w) = (None, None, s1) ->
  isEmpty c = false ->
  RunScript name c s1 = (None, s2) ->
  json_Marshal {| Name := name; ExecutedAt := time_Now s1 |} = Ok value ->
  Set_ scriptOnceStateBucket key value s2 = (err, s3) ->
  TargetStateScript_Apply t d w
  = mkRun (ofErr err) (mkWorld s3 (TargetCell :: TargetCell :: forced w))
      [EvGet scriptOnceStateBucket key None None; EvRunScript name c None;
       EvSet scriptOnceStateBucket key value err].
Proof.
  intros name key. subst name key. unfold onceKey. fold (sha256Sum c).
  intros Honce Hc Hget Hne Hrun Hjson Hset. cbn in Hget, Hset.
  unfold TargetStateScript_Apply. rewrite Honce. unfold_calls. cbn.
  rewrite Hc. cbn. rewrite Hget. cbn.
  rewrite Hne. cbn. rewrite Hrun. cbn.
  rewrite Hjson. cbn. rewrite Hset.
  now destruct err.
Qed.

(** C3: a script with [once] set first queries the ledger under its key.
    If a record is there, [Apply] succeeds with no execution and no ledger
    write. If none is there and the script runs successfully, [Apply] then
    stores the record of the name and of the time taken before the run
    under that key; and when the ledger then returns what was stored, a
    second [Apply] executes nothing and writes nothing. *)
Theorem Script_Apply_once
    (t : TargetStateScript.t) (d : DestStateEntry) (w : World) (c : bytes) :
  TargetStateScript.once t = true ->
  contentsFunc (TargetStateScript.contents t) = Ok c ->
  let name := TargetStateScript.name t in
  let bucket := scriptOnceStateBucket in
  let key := onceKey name c in
  let r := TargetStateScript_Apply t d w in
  (exists value err rest, calls r = EvGet bucket key value err :: rest)
  /\ (forall v s1,
        Get bucket key (sys w) = (Some v, None, s1) ->
        result r = Ok tt /\ calls r = [EvGet bucket key (Some v) None])
  /\ (forall s1 s2 s3 value err,
        Get bucket key (sys w) = (None, None, s1) ->
        isEmpty c = false ->
        RunScript name c s1 = (None, s2) ->
        json_Marshal {| Name := name; ExecutedAt := time_Now s1 |} = Ok value ->
        Set_ bucket key value s2 = (err, s3) ->
        calls r = [EvGet bucket key None None; EvRunScript name c None;
                   EvSet bucket key value err]
        /\ result r = ofErr err /\ sys (after r) = s3
        /\ (err = None ->
            forall v' s4 d',
              Get bucket key s3 = (Some v', None, s4) ->
              let r' := TargetStateScript_Apply t d' (after r) in
              result r' = Ok tt
              /\ count isRunScript (calls r') = 0%nat
              /\ count isSet (calls r') = 0%nat)).
Proof.
  intros Honce Hc name bucket key r. subst name bucket key r.
  split; [| split].
  - unfold onceKey. fold (sha256Sum c).
    unfold TargetStateScript_Apply. rewrite Honce. unfold_calls. cbn.
    rewrite Hc. cbn.
    destruct (Get _ _ _) as [[v [e0|]] s1]; cbn; eauto.
    destruct v as [v|]; cbn; eauto.
  - intros v s1 Hget.
    rewrite (once_run_skip t d w c v s1 Honce Hc Hget). cbn. auto.
  - intros s1 s2 s3 value err Hget Hne Hrun Hjson Hset.
    rewrite (once_run_exec t d w c value s1 s2 s3 err
               Honce Hc Hget Hne Hrun Hjson Hset).
    cbn. split; [reflexivity | split; [reflexivity | split; [reflexivity |]]].
    intros _ v' s4 d' Hget'.
    rewrite (once_run_skip t d' (mkWorld s3 _) c v' s4 Honce Hc Hget').
    cbn. auto.
Qed.

(** C1, amended: for a File target whose content resolves. If the
    destination is not a File, [Apply] removes whatever exists there (no
    call when the destination is absent) and, the removal done, writes the
    target's full content with the target's permissions: the removal
    precedes the write. If the destination is a File with another checksum,
    [Apply] writes the content with the permissions and removes nothing. *)
Theorem File_Apply_write
    (t : TargetStateFile.t) (d : DestStateEntry) (w : World) (c : bytes) :
  contentsFunc (TargetStateFile.contents t) = Ok c ->
  let r := TargetStateFile_Apply t d w in
  let write := EvWriteFile (Path d) c (TargetStateFile.perm t) in
  (isDestAbsent d = true ->
     exists err, calls r = [write err] /\ result r = ofErr err)
  /\ (isDestFile d = false -> isDestAbsent d = false ->
        (exists e,
            calls r = [EvRemoveAll (Path d) (Some e)] /\ result r = Err e)
        \/ (exists err,
              calls r = [EvRemoveAll (Path d) None; write err]
              /\ result r = ofErr err))
  /\ (forall f c',
        d = DestFile f ->
        contentsFunc (DestStateFile.contents f) = Ok c' ->
        sha256Sum c' <> sha256Sum c ->
        exists err, calls r = [write err] /\ result r = ofErr err).
Proof.
  intros Hc r write. subst r write. unfold TargetStateFile_Apply.
  split; [| split].
  - intros Habs. destruct d; try discriminate.
    unfold Remove. unfold_calls. cbn. rewrite Hc. cbn.
    destruct (WriteFile _ _ _ _) as [err s]. cbn. eauto.
  - intros Hfile Habs. destruct d; try discriminate;
      unfold Remove; unfold_calls; cbn;
      (destruct (RemoveAll _ _) as [[e|] s1]; cbn; [left; eauto |]);
      rewrite Hc; cbn;
      destruct (WriteFile _ _ _ _) as [err s2]; cbn; right; eauto.
  - intros f c' -> Hf Hsum.
    apply (proj2 (not_iff_compat (bytes_eqb_eq _ _))) in Hsum.
    apply not_true_is_false in Hsum.
    unfold_calls. cbn. rewrite Hf, Hc. cbn. rewrite Hsum. cbn.
    destruct (WriteFile _ _ _ _) as [err s]. cbn. eauto.
Qed.

(** C2, at the input where it fails: when the target's own link name does
    not resolve, [Evaluate] and [Apply] return the error, and [Equal], on a
    destination symlink that resolves, returns false with a nil error. *)
Theorem Symlink_Equal_swallows_error
    (e : error) (path destLinkname : string) (w : World) :
  let t := {| TargetStateSymlink.linkname := {| linknameFunc := Err e |} |} in
  let d := DestSymlink
             {| DestStateSymlink.path := path;
                DestStateSymlink.linkname :=
                  {| linknameFunc := Ok destLinkname |} |} in
  result (TargetStateSymlink_Evaluate t w) = Err e
  /\ result (TargetStateSymlink_Apply t d w) = Err e
  /\ result (TargetStateSymlink_Equal t d w) = Ok false.
Proof. cbn. auto. Qed.

(** The other methods that resolve a lazy value return its error: what C2
    says holds of them. *)
Lemma resolution_error_returned
    (lc : lazyContents) (e : error) (w : World) :
  contentsFunc lc = Err e ->
  (forall perm, result (TargetStateFile_Evaluate
                          {| TargetStateFile.contents := lc;
                             TargetStateFile.perm := perm |} w) = Err e)
  /\ (forall name once,
         result (TargetStateScript_Evaluate
                   {| TargetStateScript.contents := lc;
                      TargetStateScript.name := name;
                      TargetStateScript.once := once |} w) = Err e)
  /\ (forall name once d,
         result (TargetStateScript_Apply
                   {| TargetStateScript.contents := lc;
                      TargetStateScript.name := name;
                      TargetStateScript.once := once |} d w) = Err e)
  /\ (forall perm f c',
         contentsFunc (DestStateFile.contents f) = Ok c' ->
         result (TargetStateFile_Apply
                   {| TargetStateFile.contents := lc;
                      TargetStateFile.perm := perm |} (DestFile f) w) = Err e
         /\ (DestStateFile.perm f = perm ->
             result (TargetStateFile_Equal
                       {| TargetStateFile.contents := lc;
                          TargetStateFile.perm := perm |} (DestFile f) w)
             = Err e)).
Proof.
  intros Hlc. split; [| split; [| split]].
  - intros perm.
    unfold TargetStateFile_Evaluate. unfold_calls. cbn. now rewrite Hlc.
  - intros name once.
    unfold TargetStateScript_Evaluate. unfold_calls. cbn. now rewrite Hlc.
  - intros name once d.
    unfold TargetStateScript_Apply. unfold_calls. cbn.
    destruct once; cbn; now rewrite Hlc.
  - intros perm f c' Hf. split.
    + unfold TargetStateFile_Apply. unfold_calls. cbn. now rewrite Hf, Hlc.
    + intros Hperm. apply N.eqb_eq in Hperm.
      unfold TargetStateFile_Equal. unfold_calls. cbn.
      rewrite Hperm. cbn. now rewrite Hf, Hlc.
Qed.

(** *** Properties of every Apply *)

(** Follows [Apply] along every path of its code, in the order of the code:
    what each lazy value resolves to, what each test gives and what each
    System call returns. Every path is closed by [fin]. *)
Ltac Apply_paths t d fin :=
  destruct t as [t|t|t|t|t]; cbn [Apply];
  [ unfold TargetStateAbsent_Apply;
    destruct d; unfold_calls; cbn; try solve [fin];
    destruct (RemoveAll _ _) as [[?|] ?]; cbn; fin
  | unfold TargetStateDir_Apply, Remove;
    destruct d as [d|d|d|d]; unfold_calls; cbn;
    [ destruct (Mkdir _ _ _) as [[?|] ?]; cbn; fin
    | destruct (_ =? _)%N; cbn; try solve [fin];
      destruct (Chmod _ _ _) as [[?|] ?]; cbn; fin
    | destruct (RemoveAll _ _) as [[?|] ?]; cbn; try solve [fin];
      destruct (Mkdir _ _ _) as [[?|] ?]; cbn; fin
    | destruct (RemoveAll _ _) as [[?|] ?]; cbn; try solve [fin];
      destruct (Mkdir _ _ _) as [[?|] ?]; cbn; fin ]
  | unfold TargetStateFile_Apply, Remove;
    destruct d as [d|d|d|d]; unfold_calls; cbn;
    [ destruct (contentsFunc (TargetStateFile.contents t)) as [?|?]; cbn;
      try solve [fin];
      destruct (WriteFile _ _ _ _) as [[?|] ?]; cbn; fin
    | destruct (RemoveAll _ _) as [[?|] ?]; cbn; try solve [fin];
      destruct (contentsFunc (TargetStateFile.contents t)) as [?|?]; cbn;
      try solve [fin];
      destruct (WriteFile _ _ _ _) as [[?|] ?]; cbn; fin
    | destruct (contentsFunc (DestStateFile.contents d)) as [?|?]; cbn;
      try solve [fin];
      destruct (contentsFunc (TargetStateFile.contents t)) as [?|?]; cbn;
      try solve [fin];
      (destruct (bytes_eqb _ _) eqn:?; cbn;
       [ destruct (_ =? _)%N eqn:?; cbn; try solve [fin];
         destruct (Chmod _ _ _) as [[?|] ?]; cbn; fin
       | destruct (WriteFile _ _ _ _) as [[?|] ?]; cbn; fin ])
    | destruct (RemoveAll _ _) as [[?|] ?]; cbn; try solve [fin];
      destruct (contentsFunc (TargetStateFile.contents t)) as [?|?]; cbn;
      try solve [fin];
      destruct (WriteFile _ _ _ _) as [[?|] ?]; cbn; fin ]
  | unfold TargetStateScript_Apply;
    destruct (TargetStateScript.once t); unfold_calls; cbn;
    [ destruct (contentsFunc (TargetStateScript.contents t)) as [?|?]; cbn;
      try solve [fin];
      destruct (Get _ _ _) as [[[?|] [?|]] ?]; cbn; try solve [fin];
      destruct (isEmpty _); cbn; try solve [fin];
      destruct (RunScript _ _ _) as [[?|] ?]; cbn; try solve [fin];
      destruct (json_Marshal _) as [?|?] eqn:?; cbn; try solve [fin];
      destruct (Set_ _ _ _ _) as [[?|] ?]; cbn; fin
    | destruct (contentsFunc (TargetStateScript.contents t)) as [?|?]; cbn;
      try solve [fin];
      destruct (isEmpty _); cbn; try solve [fin];
      destruct (RunScript _ _ _) as [[?|] ?]; cbn; fin ]
  | unfold TargetStateSymlink_Apply, Remove;
    destruct d as [d|d|d|d]; unfold_calls; cbn;
    [ destruct (linknameFunc (TargetStateSymlink.linkname t)) as [?|?]; cbn;
      try solve [fin];
      destruct (WriteSymlink _ _ _) as [[?|] ?]; cbn; fin
    | destruct (linknameFunc (TargetStateSymlink.linkname t)) as [?|?]; cbn;
      try solve [fin];
      destruct (RemoveAll _ _) as [[?|] ?]; cbn; try solve [fin];
      destruct (WriteSymlink _ _ _) as [[?|] ?]; cbn; fin
    | destruct (linknameFunc (TargetStateSymlink.linkname t)) as [?|?]; cbn;
      try solve [fin];
      destruct (RemoveAll _ _) as [[?|] ?]; cbn; try solve [fin];
      destruct (WriteSymlink _ _ _) as [[?|] ?]; cbn; fin
    | destruct (linknameFunc (DestStateSymlink.linkname d)) as [?|?]; cbn;
      try solve [fin];
      destruct (linknameFunc (TargetStateSymlink.linkname t)) as [?|?]; cbn;
      try solve [fin];
      destruct (String.eqb _ _); cbn; try solve [fin];
      destruct (RemoveAll _ _) as [[?|] ?]; cbn; try solve [fin];
      destruct (WriteSymlink _ _ _) as [[?|] ?]; cbn; fin ] ].

(** Splits a trace that is known into what precedes a call, the call and
    what follows it. *)
Ltac split_trace :=
  let pre := fresh "pre" in
  let Hcalls := fresh "Hcalls" in
  let Hfail := fresh "Hfail" in
  intros pre ? ? ? Hcalls Hfail;
  destruct pre as [|? [|? [|? [|? ?]]]]; cbn in Hcalls;
  inversion Hcalls; subst; cbn in Hfail;
  try discriminate Hfail; try (inversion Hfail; subst); auto.

(** X1: [Apply] stops at the first call that fails and returns its error: in
    the trace of any [Apply] a failed call is the last one, and its error is
    the result. There is no retry and no rollback. *)
Theorem Apply_stops_at_failure
    (t : TargetStateEntry) (d : DestStateEntry) (w : World) :
  let r := Apply t d w in
  forall pre ev post e,
    calls r = pre ++ ev :: post ->
    failure ev = Some e ->
    post = [] /\ result r = Err e.
Proof.
  intros r. subst r. Apply_paths t d split_trace.
Qed.

(** Names the call that failed, the lazy value that did not resolve or the
    record that could not be encoded, for an error that is known. *)
Ltac find_origin :=
  let H := fresh "H" in
  intros H; inversion H; subst; clear H;
  first
    [ solve [left; exists []; eexists; split; reflexivity]
    | solve [left; eexists (_ :: nil); eexists; split; reflexivity]
    | solve [left; eexists (_ :: _ :: nil); eexists; split; reflexivity]
    | solve [right; left; reflexivity]
    | solve [right; right; left; reflexivity]
    | solve [right; right; right; eexists; eassumption] ].

(** X2: [Apply] makes up no error: the error it returns is the error of the last
    call it made on the System, or the error [Evaluate] reports for the
    target, or the error of the destination's own lazy value, or an error of
    json.Marshal. *)
Theorem Apply_error_provenance
    (t : TargetStateEntry) (d : DestStateEntry) (w : World) (e : error) :
  let r := Apply t d w in
  result r = Err e ->
  (exists pre ev, calls r = pre ++ [ev] /\ failure ev = Some e)
  \/ result (Evaluate t w) = Err e
  \/ destError d = Some e
  \/ (exists record, json_Marshal record = Err e).
Proof.
  intros r. subst r.
  unfold Evaluate, TargetStateAbsent_Evaluate, TargetStateDir_Evaluate,
    TargetStateFile_Evaluate, TargetStateScript_Evaluate,
    TargetStateSymlink_Evaluate.
  Apply_paths t d find_origin.
Qed.

(** Goes through the calls of a trace that is known. *)
Ltac each_call :=
  intros;
  repeat match goal with
         | H : In _ _ |- _ => cbn in H
         | H : _ \/ _ |- _ => destruct H
         | H : False |- _ => destruct H
         end;
  subst; cbn in *; try discriminate; auto.

(** X3: [Apply] changes the file system at the destination's path only: every
    call of its trace that changes the file system acts on that path, and
    the trace of a Script holds no such call. *)
Theorem Apply_touches_only_destination
    (t : TargetStateEntry) (d : DestStateEntry) (w : World) :
  let r := Apply t d w in
  forall ev,
    In ev (calls r) -> isMutation ev = true ->
    isTargetScript t = false /\ touched ev = Some (Path d).
Proof.
  intros r. subst r. Apply_paths t d each_call.
Qed.

(** Compares the traces of a run, which are known. *)
Ltac bound_calls :=
  split; [| split]; intros; cbn in *; try discriminate; try lia;
  repeat match goal with
         | H : _ :: _ = _ :: _ |- _ => inversion H; subst; clear H
         end;
  try congruence.

(** X4: [Apply] makes at most two calls, or three for a Script; and where it
    makes two on the file system, the first is the removal of the
    destination, which succeeded. *)
Theorem Apply_call_bound
    (t : TargetStateEntry) (d : DestStateEntry) (w : World) :
  let r := Apply t d w in
  (isTargetScript t = false -> (List.length (calls r) <= 2)%nat)
  /\ (isTargetScript t = true -> (List.length (calls r) <= 3)%nat)
  /\ (forall ev rest,
        isTargetScript t = false ->
        calls r = ev :: rest -> rest <> [] ->
        ev = EvRemoveAll (Path d) None).
Proof.
  intros r. subst r. Apply_paths t d bound_calls.
Qed.


(** *** Equal and Evaluate *)

(** X5: [Equal] and [Evaluate] only read: whatever the target and the
    destination, they make no call on the System and leave its state as it
    was. *)
Theorem Equal_Evaluate_read_only
    (t : TargetStateEntry) (d : DestStateEntry) (w : World) :
  (calls (Equal t d w) = [] /\ sys (after (Equal t d w)) = sys w)
  /\ (calls (Evaluate t w) = [] /\ sys (after (Evaluate t w)) = sys w).
Proof.
  split.
  - destruct t as [t|t|t|t|t]; destruct d as [d|d|d|d]; cbn;
      unfold TargetStateFile_Equal, TargetStateSymlink_Equal;
      unfold_calls; cbn; auto.
    + destruct (negb _); cbn; auto.
      destruct (contentsFunc (DestStateFile.contents d)); cbn; auto.
      destruct (contentsFunc (TargetStateFile.contents t)); cbn; auto.
    + destruct (linknameFunc (DestStateSymlink.linkname d)); cbn; auto.
      destruct (linknameFunc (TargetStateSymlink.linkname t)); cbn; auto.
  - destruct t as [t|t|t|t|t]; cbn;
      unfold TargetStateFile_Evaluate, TargetStateScript_Evaluate,
        TargetStateSymlink_Evaluate;
      unfold_calls; cbn; auto.
    + destruct (contentsFunc (TargetStateFile.contents t)); cbn; auto.
    + destruct (contentsFunc (TargetStateScript.contents t)); cbn; auto.
    + destruct (linknameFunc (TargetStateSymlink.linkname t)); cbn; auto.
Qed.

(** X6: The converse of the consistency of [Equal] and [Apply]: for an Absent,
    Dir, File or Symlink target, an [Apply] that succeeds without a call
    that changes the file system had nothing to do, and [Equal] returns
    true. *)
Theorem Apply_noop_implies_Equal
    (t : TargetStateEntry) (d : DestStateEntry) (w0 w : World) :
  isTargetScript t = false ->
  result (Apply t d w) = Ok tt ->
  count isMutation (calls (Apply t d w)) = 0%nat ->
  result (Equal t d w0) = Ok true.
Proof.
  unfold Equal, TargetStateAbsent_Equal, TargetStateDir_Equal,
    TargetStateFile_Equal, TargetStateScript_Equal, TargetStateSymlink_Equal.
  intros Hkind.
  Apply_paths t d ltac:(cbn in *; intros; try discriminate; auto).
Qed.


(** *** What each Apply does *)

(** X7: A directory target: on a directory with other permissions, one Chmod and
    nothing else; where nothing is, one Mkdir; on anything else, the removal
    of what is there and then, the removal done, the Mkdir. A removal that
    fails ends [Apply] with its error and no directory is made. *)
Theorem Dir_Apply_behaviour
    (t : TargetStateDir.t) (d : DestStateEntry) (w : World) :
  let r := TargetStateDir_Apply t d w in
  let perm := TargetStateDir.perm t in
  (forall dir,
      d = DestDir dir -> DestStateDir.perm dir <> perm ->
      exists err, calls r = [EvChmod (Path d) perm err] /\ result r = ofErr err)
  /\ (isDestAbsent d = true ->
        exists err, calls r = [EvMkdir (Path d) perm err] /\ result r = ofErr err)
  /\ (isDestDir d = false -> isDestAbsent d = false ->
        (exists e,
            calls r = [EvRemoveAll (Path d) (Some e)] /\ result r = Err e)
        \/ (exists err,
              calls r = [EvRemoveAll (Path d) None; EvMkdir (Path d) perm err]
              /\ result r = ofErr err)).
Proof.
  intros r perm. subst r perm. unfold TargetStateDir_Apply, Remove.
  split; [| split].
  - intros dir -> Hperm. apply N.eqb_neq in Hperm. rewrite Hperm.
    unfold_calls. cbn. destruct (Chmod _ _ _) as [err s]. cbn. eauto.
  - intros Habs. destruct d; try discriminate. unfold_calls. cbn.
    destruct (Mkdir _ _ _) as [err s]. cbn. eauto.
  - intros Hdir Habs. destruct d; try discriminate; unfold_calls; cbn;
      (destruct (RemoveAll _ _) as [[e|] s1]; cbn; [left; eauto |]);
      destruct (Mkdir _ _ _) as [err s2]; cbn; right; eauto.
Qed.

(** X8: A symlink target whose link name resolves to [l]: where nothing is, one
    WriteSymlink of [l] at the destination's path; on a directory, a file or
    a symlink to another name, the removal of what is there and then, the
    removal done, the WriteSymlink. A removal that fails ends [Apply] with
    its error and no symlink is written. *)
Theorem Symlink_Apply_behaviour
    (t : TargetStateSymlink.t) (d : DestStateEntry) (w : World) (l : string) :
  linknameFunc (TargetStateSymlink.linkname t) = Ok l ->
  let r := TargetStateSymlink_Apply t d w in
  let write := EvWriteSymlink l (Path d) in
  let replaced :=
    (exists e, calls r = [EvRemoveAll (Path d) (Some e)] /\ result r = Err e)
    \/ (exists err,
          calls r = [EvRemoveAll (Path d) None; write err]
          /\ result r = ofErr err) in
  (isDestAbsent d = true ->
     exists err, calls r = [write err] /\ result r = ofErr err)
  /\ (isDestSymlink d = false -> isDestAbsent d = false -> replaced)
  /\ (forall link l',
        d = DestSymlink link ->
        linknameFunc (DestStateSymlink.linkname link) = Ok l' ->
        l' <> l -> replaced).
Proof.
  intros Hl r write replaced. subst r write replaced.
  unfold TargetStateSymlink_Apply, Remove.
  split; [| split].
  - intros Habs. destruct d; try discriminate. unfold_calls. cbn.
    rewrite Hl. cbn. destruct (WriteSymlink _ _ _) as [err s]. cbn. eauto.
  - intros Hlink Habs. destruct d; try discriminate; unfold_calls; cbn;
      rewrite Hl; cbn;
      (destruct (RemoveAll _ _) as [[e|] s1]; cbn; [left; eauto |]);
      destruct (WriteSymlink _ _ _) as [err s2]; cbn; right; eauto.
  - intros link l' -> Hl' Hneq. apply String.eqb_neq in Hneq.
    unfold_calls. cbn. rewrite Hl', Hl. cbn. rewrite Hneq. cbn.
    destruct (RemoveAll _ _) as [[e|] s1]; cbn; [left; eauto |].
    destruct (WriteSymlink _ _ _) as [err s2]; cbn; right; eauto.
Qed.

(** X9: A symlink target whose link name does not resolve changes nothing:
    [Apply] makes no call on the System, the removal of the destination
    least of all, and returns the error of the link name, or the error of
    the destination's link name where that one fails first. *)
Theorem Symlink_Apply_unresolved
    (t : TargetStateSymlink.t) (d : DestStateEntry) (w : World) (e : error) :
  linknameFunc (TargetStateSymlink.linkname t) = Err e ->
  let r := TargetStateSymlink_Apply t d w in
  calls r = [] /\ sys (after r) = sys w
  /\ (result r = Err e
      \/ exists e', destError d = Some e' /\ result r = Err e').
Proof.
  intros Hl r. subst r. unfold TargetStateSymlink_Apply, Remove.
  destruct d as [d|d|d|d]; unfold_calls; cbn;
    try (destruct (linknameFunc (DestStateSymlink.linkname d)) as [l'|e'];
         cbn);
    rewrite ?Hl; cbn; eauto 6.
Qed.

(** X10: A file target whose content does not resolve, on a destination that is
    not a File: [Apply] writes nothing, but it has removed what was at the
    destination before it reads the content. Where the removal succeeded
    the error of the content is returned and the destination is gone. *)
Theorem File_Apply_unresolved
    (t : TargetStateFile.t) (d : DestStateEntry) (w : World) (e : error) :
  contentsFunc (TargetStateFile.contents t) = Err e ->
  isDestFile d = false ->
  let r := TargetStateFile_Apply t d w in
  count isWriteFile (calls r) = 0%nat
  /\ (isDestAbsent d = true -> calls r = [] /\ result r = Err e)
  /\ (isDestAbsent d = false ->
        exists err,
          calls r = [EvRemoveAll (Path d) err]
          /\ result r = Err (match err with Some e' => e' | None => e end)).
Proof.
  intros Hc Hfile r. subst r. unfold TargetStateFile_Apply, Remove.
  destruct d as [d|d|d|d]; try discriminate; unfold_calls; cbn;
    try (destruct (RemoveAll _ _) as [[e'|] s1]; cbn);
    rewrite ?Hc; cbn;
    (split; [reflexivity | split; intros Habs; try discriminate; eauto]).
Qed.

(** X11: A script that is not run once only is run by every [Apply]: when its
    content resolves and is not empty, the trace is the one RunScript call
    with the name and the content, whose result [Apply] returns. *)
Theorem Script_Apply_every_time
    (t : TargetStateScript.t) (d : DestStateEntry) (w : World) (c : bytes) :
  TargetStateScript.once t = false ->
  contentsFunc (TargetStateScript.contents t) = Ok c ->
  isEmpty c = false ->
  let r := TargetStateScript_Apply t d w in
  exists err,
    calls r = [EvRunScript (TargetStateScript.name t) c err]
    /\ result r = ofErr err.
Proof.
  intros Honce Hc Hne r. subst r. unfold TargetStateScript_Apply.
  rewrite Honce. unfold_calls. cbn. rewrite Hc. cbn. rewrite Hne. cbn.
  destruct (RunScript _ _ _) as [[e|] s]; cbn; eauto.
Qed.

(** X12: A once-script is not run when the ledger cannot be read: if the lookup
    fails, it is the only call [Apply] makes, and [Apply] returns its
    error. *)
Theorem Script_Apply_ledger_unreadable
    (t : TargetStateScript.t) (d : DestStateEntry) (w : World) (c : bytes)
    (v : option bytes) (e : error) (s1 : St) :
  TargetStateScript.once t = true ->
  contentsFunc (TargetStateScript.contents t) = Ok c ->
  let key := onceKey (TargetStateScript.name t) c in
  Get scriptOnceStateBucket key (sys w) = (v, Some e, s1) ->
  let r := TargetStateScript_Apply t d w in
  calls r = [EvGet scriptOnceStateBucket key v (Some e)]
  /\ result r = Err e /\ sys (after r) = s1
  /\ count isRunScript (calls r) = 0%nat.
Proof.
  intros Honce Hc key Hget r. subst key r.
  unfold onceKey in *. fold (sha256Sum c) in *. cbn in Hget.
  unfold TargetStateScript_Apply. rewrite Honce. unfold_calls. cbn.
  rewrite Hc. cbn. rewrite Hget. cbn. auto.
Qed.


(** *** The key of a once-script *)

Lemma hexDecode_EncodeToString (l : bytes) :
  hexDecode (hex.EncodeToString l) = l.
Proof.
  induction l as [|b l IH]; [reflexivity |].
  cbn [hex.EncodeToString hexDecode]. rewrite IH. f_equal.
  destruct b; reflexivity.
Qed.

Lemma EncodeToString_length (l : bytes) :
  String.length (hex.EncodeToString l) = (2 * List.length l)%nat.
Proof.
  induction l as [|b l IH]; [reflexivity |].
  cbn [hex.EncodeToString String.length List.length]. rewrite IH. lia.
Qed.

Lemma round_length (v : list Z) (kw : Z * Z) :
  List.length (sha256.round v kw) = List.length v.
Proof.
  destruct v as [|a [|b [|c [|d [|e [|f [|g [|h [|i v]]]]]]]]]; reflexivity.
Qed.

Lemma compress_length (h : list Z) (block : bytes) :
  List.length (sha256.compress h block) = List.length h.
Proof.
  unfold sha256.compress. rewrite length_map, length_combine.
  assert (Hv : forall l v, List.length (fold_left sha256.round l v)
                           = List.length v).
  { induction l as [|kw l IH]; intros v; [reflexivity |].
    cbn [fold_left]. now rewrite IH, round_length. }
  rewrite Hv. apply Nat.min_id.
Qed.

(** A SHA-256 checksum has 32 bytes. *)
Lemma Sum256_length (data : bytes) : List.length (sha256.Sum256 data) = 32%nat.
Proof.
  unfold sha256.Sum256.
  assert (Hh : forall blocks h, List.length h = 8%nat ->
                 List.length (fold_left sha256.compress blocks h) = 8%nat).
  { induction blocks as [|b blocks IH]; intros h Hlen; [exact Hlen |].
    cbn [fold_left]. apply IH. now rewrite compress_length. }
  specialize (Hh (sha256.chunks (List.length (sha256.pad data)) 64
                    (sha256.pad data)) sha256.H0 eq_refl).
  destruct (fold_left sha256.compress _ sha256.H0)
    as [|a [|b [|c [|d [|e [|f [|g [|h [|i v]]]]]]]]]; try discriminate Hh.
  reflexivity.
Qed.

Lemma string_length_append (s t : string) :
  String.length (s ++ t) = (String.length s + String.length t)%nat.
Proof.
  induction s as [|c s IH]; [reflexivity |]. cbn. now rewrite IH.
Qed.

(** Two strings that end on parts of the same length are equal part by
    part. *)
Lemma append_same_length (s1 s2 t1 t2 : string) :
  (s1 ++ t1 = s2 ++ t2)%string -> String.length t1 = String.length t2 ->
  s1 = s2 /\ t1 = t2.
Proof.
  revert s2. induction s1 as [|c s1 IH]; intros s2 Heq Hlen.
  - destruct s2 as [|c2 s2]; [now split |].
    cbn in Heq. subst t1. cbn in Hlen. rewrite string_length_append in Hlen. lia.
  - destruct s2 as [|c2 s2].
    + cbn in Heq. subst t2. cbn in Hlen. rewrite string_length_append in Hlen. lia.
    + cbn in Heq. injection Heq as -> Heq.
      destruct (IH s2 Heq Hlen) as [-> ->]. now split.
Qed.

Lemma bytes_of_string_inj (s1 s2 : string) :
  bytes_of_string s1 = bytes_of_string s2 -> s1 = s2.
Proof.
  unfold bytes_of_string. intros H.
  rewrite <- (string_of_list_byte_of_string s1),
          <- (string_of_list_byte_of_string s2). now rewrite H.
Qed.

(** The key of a once-script tells its name and its checksum, whatever
    colons the name holds. *)
Lemma onceKey_inj (name1 name2 : string) (c1 c2 : bytes) :
  onceKey name1 c1 = onceKey name2 c2 ->
  name1 = name2 /\ sha256Sum c1 = sha256Sum c2.
Proof.
  unfold onceKey, sha256Sum. intros H. apply bytes_of_string_inj in H.
  apply append_same_length in H.
  - destruct H as [Hname Hhex]. split; [exact Hname |].
    cbn in Hhex. injection Hhex as Hhex.
    rewrite <- (hexDecode_EncodeToString (sha256.Sum256 c1)),
            <- (hexDecode_EncodeToString (sha256.Sum256 c2)).
    now rewrite Hhex.
  - cbn. now rewrite !EncodeToString_length, !Sum256_length.
Qed.

(** A call [Apply] makes on the ledger for a script is made under the key
    of the script. *)
Lemma Script_Apply_ledger_key
    (t : TargetStateScript.t) (d : DestStateEntry) (w : World) (c : bytes)
    (ev : Event) (key : bytes) :
  contentsFunc (TargetStateScript.contents t) = Ok c ->
  In ev (calls (TargetStateScript_Apply t d w)) ->
  ledgerKey ev = Some key ->
  key = onceKey (TargetStateScript.name t) c.
Proof.
  intros Hc. unfold onceKey. fold (sha256Sum c).
  unfold TargetStateScript_Apply.
  destruct (TargetStateScript.once t); unfold_calls; cbn; rewrite Hc; cbn.
  - destruct (Get _ _ _) as [[[v|] [e0|]] s1]; cbn; try solve [each_call];
      try (intros [<- | []]; cbn; congruence).
    destruct (isEmpty c); cbn; try (intros [<- | []]; cbn; congruence).
    destruct (RunScript _ _ _) as [[e0|] s2]; cbn;
      try (intros [<- | [<- | []]]; cbn; congruence).
    destruct (json_Marshal _) as [value|e0]; cbn;
      try (intros [<- | [<- | []]]; cbn; congruence).
    destruct (Set_ _ _ _ _) as [[e0|] s3]; cbn;
      intros [<- | [<- | [<- | []]]]; cbn; congruence.
  - destruct (isEmpty c); cbn; [intros [] |].
    destruct (RunScript _ _ _) as [[e0|] s2]; cbn;
      intros [<- | []]; cbn; congruence.
Qed.

(** X13: Two scripts meet on a ledger key only if they have the same name and
    contents of the same checksum: whenever a call of one [Apply] and a call
    of another are made under the same key, the names are equal and so are
    the checksums. A colon in a name confuses no two scripts. *)
Theorem Script_ledger_key_identifies
    (t1 t2 : TargetStateScript.t) (d1 d2 : DestStateEntry) (w1 w2 : World)
    (c1 c2 : bytes) (ev1 ev2 : Event) (key : bytes) :
  contentsFunc (TargetStateScript.contents t1) = Ok c1 ->
  contentsFunc (TargetStateScript.contents t2) = Ok c2 ->
  In ev1 (calls (TargetStateScript_Apply t1 d1 w1)) ->
  In ev2 (calls (TargetStateScript_Apply t2 d2 w2)) ->
  ledgerKey ev1 = Some key -> ledgerKey ev2 = Some key ->
  TargetStateScript.name t1 = TargetStateScript.name t2
  /\ sha256Sum c1 = sha256Sum c2.
Proof.
  intros Hc1 Hc2 Hin1 Hin2 Hk1 Hk2.
  pose proof (Script_Apply_ledger_key t1 d1 w1 c1 ev1 key Hc1 Hin1 Hk1) as H1.
  pose proof (Script_Apply_ledger_key t2 d2 w2 c2 ev2 key Hc2 Hin2 Hk2) as H2.
  apply onceKey_inj. congruence.
Qed.


(** *** Evaluate before Apply *)

(** Closes the path of an [Apply] whose target does not evaluate. *)
Ltac only_removals :=
  let H := fresh "H" in
  intros H; first [discriminate H | split; [eauto | each_call]].

(** X14: A target that [Evaluate] rejects is never applied: [Apply] returns an
    error, and it has written, created and run nothing. The one call it can
    have made is the removal of the destination, which a file target asks
    for before it reads its content. *)
Theorem Evaluate_failure_blocks_Apply
    (t : TargetStateEntry) (d : DestStateEntry) (w : World) (e : error) :
  result (Evaluate t w) = Err e ->
  let r := Apply t d w in
  (exists e', result r = Err e')
  /\ (forall ev, In ev (calls r) -> ev = EvRemoveAll (Path d) (failure ev)).
Proof.
  unfold Evaluate, TargetStateAbsent_Evaluate, TargetStateDir_Evaluate,
    TargetStateFile_Evaluate, TargetStateScript_Evaluate,
    TargetStateSymlink_Evaluate. cbn zeta.
  Apply_paths t d only_removals.
Qed.

End Reconcile.

Arguments mkWorld {St} sys forced.
Arguments sys {St} w.
Arguments forced {St} w.
Arguments mkRun {St A} result after calls.
Arguments result {St A} r.
Arguments after {St A} r.
Arguments calls {St A} r.

(** ** Examples *)

(** The digests of the standard test vectors, and of the script of the
    specification's example. *)
Example sha256_abc :
  hex.EncodeToString (sha256.Sum256 (bytes_of_string "abc"))
  = "ba7816bf8f01cfea414140de5dae2223b00361a396177a9cb410ff61f20015ad"%string.
Proof. vm_compute. reflexivity. Qed.

Example sha256_empty :
  hex.EncodeToString (sha256.Sum256 [])
  = "e3b0c44298fc1c149afbf4c8996fb92427ae41e4649b934ca495991b7852b855"%string.
Proof. vm_compute. reflexivity. Qed.

Example sha256_two_blocks :
  hex.EncodeToString (sha256.Sum256 (repeat x61 70))
  = "6bd5e5034855a11241f0dee8fc72850ffd9955b28347a86428b5fa19119f6ad0"%string.
Proof. vm_compute. reflexivity. Qed.

Example sha256_echo_hi :
  hex.EncodeToString (sha256.Sum256 (bytes_of_string "echo hi"))
  = "56a79f3b115448072387c2480044bfa2cf8f90e4f5fddd8c943b4e051b81f80b"%string.
Proof. vm_compute. reflexivity. Qed.

(** The fuel of the functions that carry some is enough: the padded message
    is a whole number of blocks, cut into blocks it loses no byte, and
    trimming stops only where no white space is left. *)
Lemma pad_length (msg : bytes) :
  (Z.of_nat (List.length (sha256.pad msg)) mod 64 = 0)%Z.
Proof.
  unfold sha256.pad. rewrite length_app. cbn [List.length].
  rewrite length_app, repeat_length.
  change (List.length (sha256.be_bytes 8 (8 * Z.of_nat (List.length msg)))) with 8%nat.
  set (len := Z.of_nat (List.length msg)).
  assert (0 <= (55 - len) mod 64 < 64)%Z by (apply Z.mod_pos_bound; lia).
  rewrite Nat2Z.inj_add, Nat2Z.inj_succ, Nat2Z.inj_add, Z2Nat.id by lia.
  fold len. cbn [Z.of_nat].
  Z.to_euclidean_division_equations. lia.
Qed.

Lemma chunks_concat (fuel size : nat) (l : bytes) :
  (0 < size)%nat -> (List.length l <= fuel)%nat ->
  List.concat (sha256.chunks fuel size l) = l.
Proof.
  intros Hsize. revert l.
  induction fuel as [|fuel IH]; intros l Hlen.
  - destruct l; [reflexivity | cbn in Hlen; lia].
  - destruct l as [|b l]; [reflexivity |].
    cbn [sha256.chunks List.concat]. rewrite IH.
    + apply firstn_skipn.
    + rewrite length_skipn. cbn [List.length] in *. lia.
Qed.

Lemma trimLeft_done (fuel : nat) (s : bytes) :
  (List.length s <= fuel)%nat -> leadingSpace (trimLeft fuel s) = 0%nat.
Proof.
  revert s. induction fuel as [|fuel IH]; intros s Hlen; cbn [trimLeft].
  - destruct s; [reflexivity | cbn in Hlen; lia].
  - destruct (leadingSpace s) as [|n] eqn:Hs; [exact Hs |].
    apply IH. rewrite length_skipn.
    destruct s; [discriminate Hs | cbn in Hlen |- *; lia].
Qed.

Lemma trimRight_done (fuel : nat) (r : bytes) :
  (List.length r <= fuel)%nat -> trailingSpace (trimRight fuel r) = 0%nat.
Proof.
  revert r. induction fuel as [|fuel IH]; intros r Hlen; cbn [trimRight].
  - destruct r; [reflexivity | cbn in Hlen; lia].
  - destruct (trailingSpace r) as [|n] eqn:Hr; [exact Hr |].
    apply IH. rewrite length_skipn.
    destruct r; [discriminate Hr | cbn in Hlen |- *; lia].
Qed.

(** What counts as an empty script. *)
Example isEmpty_whitespace :
  isEmpty (bytes_of_string (String " " (String " " (String " "
            (String "010" (String "009" EmptyString)))))) = true.
Proof. reflexivity. Qed.

Example isEmpty_nil : isEmpty [] = true.
Proof. reflexivity. Qed.

Example isEmpty_nbsp : isEmpty [xc2; xa0; x20; xe2; x80; x83] = true.
Proof. reflexivity. Qed.

Example isEmpty_script : isEmpty (bytes_of_string "echo hi") = false.
Proof. reflexivity. Qed.

Example TrimSpace_inner :
  bytes_TrimSpace (bytes_of_string " a b  ") = bytes_of_string "a b".
Proof. reflexivity. Qed.

(** The specification's example of a symlink that converges: one removal,
    one symlink written, and the destination read again is equal. *)
Example Symlink_convergence :
  let t := {| TargetStateSymlink.linkname :=
                {| linknameFunc := Ok "/etc/passwd"%string |} |} in
  let w := mkWorld (Sample.holding (MemSystem.Symlink "/old/target")) [] in
  let r := TargetStateSymlink_Apply t (Sample.destSymlink "/old/target") w in
  calls r = [EvRemoveAll Sample.bashrcPath None;
             EvWriteSymlink "/etc/passwd" Sample.bashrcPath None]
  /\ MemSystem.lookup Sample.bashrcPath (sys (after r))
     = Some (MemSystem.Symlink "/etc/passwd")
  /\ result (TargetStateSymlink_Equal t (Sample.destSymlink "/etc/passwd")
               (after r)) = Ok true.
Proof. vm_compute. auto. Qed.

(** A target symlink that cannot be read, compared with a destination that
    can: no error comes out of [Equal]. *)
Example Symlink_Equal_unreadable_target :
  let t := {| TargetStateSymlink.linkname :=
                {| linknameFunc := Err "permission denied"%string |} |} in
  let r := TargetStateSymlink_Equal t (Sample.destSymlink "/old/target")
             (mkWorld MemSystem.empty []) in
  result r = Ok false.
Proof. reflexivity. Qed.

Lemma bashrc_modes_differ : Sample.mode 6 4 4 <> Sample.mode 6 0 0.
Proof. intros H. vm_compute in H. discriminate H. Qed.

(** The specification's example of a convergence of permissions only: the
    same content, 0644 at the destination, 0600 in the target. *)
Lemma File_Apply_same_checksum_witness :
  let file perm := MemSystem.File Sample.newContents perm in
  let dest perm := DestFile (Sample.destFile Sample.newContents perm) in
  let r := TargetStateFile_Apply Sample.bashrc (dest (Sample.mode 6 4 4))
             (mkWorld (Sample.holding (file (Sample.mode 6 4 4))) []) in
  let r' := TargetStateFile_Apply Sample.bashrc (dest (Sample.mode 6 0 0))
              (mkWorld (Sample.holding (file (Sample.mode 6 0 0))) []) in
  (count isChmod (calls r) = 1%nat /\ count isWriteFile (calls r) = 0%nat)
  /\ (calls r' = [] /\ result r' = Ok tt).
Proof.
  intros file dest r r'. split.
  - destruct (File_Apply_same_checksum Sample.bashrc
                (Sample.destFile Sample.newContents (Sample.mode 6 4 4))
                (mkWorld (Sample.holding (file (Sample.mode 6 4 4))) [])
                Sample.newContents Sample.newContents
                eq_refl eq_refl eq_refl) as [H _].
    destruct (H bashrc_modes_differ) as (H1 & H2 & _). split; assumption.
  - destruct (File_Apply_same_checksum Sample.bashrc
                (Sample.destFile Sample.newContents (Sample.mode 6 0 0))
                (mkWorld (Sample.holding (file (Sample.mode 6 0 0))) [])
                Sample.newContents Sample.newContents
                eq_refl eq_refl eq_refl) as [_ H].
    destruct (H eq_refl) as (H1 & H2 & _). split; assumption.
Defined.

(** A destination of mode 0644 is not equal to a target of mode 0600, and
    finding that out asks for no lazy value. *)
Lemma File_Equal_perm_short_circuit_witness :
  let w := mkWorld (Sample.holding
                      (MemSystem.File Sample.oldContents (Sample.mode 6 4 4))) [] in
  let r := TargetStateFile_Equal Sample.bashrc
             (DestFile (Sample.destFile Sample.oldContents (Sample.mode 6 4 4))) w in
  result r = Ok false /\ forced (after r) = [] /\ calls r = [].
Proof.
  intros w r.
  destruct (File_Equal_perm_short_circuit Sample.bashrc
              (Sample.destFile Sample.oldContents (Sample.mode 6 4 4)) w
              bashrc_modes_differ) as (H1 & H2 & _ & H4).
  split; [exact H1 | split; [exact H2 | exact H4]].
Defined.

(** A script that is run every time leaves the ledger alone. *)
Lemma Script_Apply_not_once_no_ledger_witness :
  let r := TargetStateScript_Apply MemSystem.clock MemSystem.marshal
             MemSystem.bucket Sample.motd Sample.destAbsent
             (mkWorld MemSystem.empty []) in
  count isGet (calls r) = 0%nat /\ count isSet (calls r) = 0%nat
  /\ count isRunScript (calls r) = 1%nat.
Proof.
  intros r.
  destruct (Script_Apply_not_once_no_ledger MemSystem.clock MemSystem.marshal
              MemSystem.bucket Sample.motd Sample.destAbsent
              (mkWorld MemSystem.empty []) eq_refl) as [H1 H2].
  split; [exact H1 | split; [exact H2 | vm_compute; reflexivity]].
Defined.

(** Two directories of mode 0755, one exact and one not, on a destination
    that is a file. *)
Lemma Dir_exact_no_effect_witness :
  let d := DestFile (Sample.destFile Sample.oldContents (Sample.mode 6 4 4)) in
  let w := mkWorld (Sample.holding
                      (MemSystem.File Sample.oldContents (Sample.mode 6 4 4))) [] in
  TargetStateDir_Apply (Sample.dirExact true) d w
  = TargetStateDir_Apply (Sample.dirExact false) d w
  /\ TargetStateDir_Equal (Sample.dirExact true) d w
     = TargetStateDir_Equal (Sample.dirExact false) d w
  /\ TargetStateDir_Evaluate (Sample.dirExact true) w
     = TargetStateDir_Evaluate (Sample.dirExact false) w.
Proof.
  intros d w.
  exact (Dir_exact_no_effect (Sample.dirExact true) (Sample.dirExact false)
           d w eq_refl).
Defined.

(** A target file equal to its destination is applied without a call. *)
Lemma Equal_Apply_consistent_witness :
  let d := DestFile (Sample.destFile Sample.newContents (Sample.mode 6 0 0)) in
  let w := mkWorld (Sample.holding
                      (MemSystem.File Sample.newContents (Sample.mode 6 0 0))) [] in
  let r := Apply MemSystem.clock MemSystem.marshal MemSystem.bucket
             (TargetFile Sample.bashrc) d w in
  result (Equal (TargetFile Sample.bashrc) d w) = Ok true
  /\ result r = Ok tt /\ count isMutation (calls r) = 0%nat.
Proof.
  intros d w r.
  assert (Heq : result (Equal (TargetFile Sample.bashrc) d w) = Ok true).
  { vm_compute. reflexivity. }
  destruct (Equal_Apply_consistent MemSystem.clock MemSystem.marshal
              MemSystem.bucket (TargetFile Sample.bashrc) d w w eq_refl Heq)
    as (H1 & H2 & _).
  split; [exact Heq | split; [exact H1 | exact H2]].
Defined.

(** The specification's example of a once-script: the first [Apply] queries
    the ledger, runs the script and stores its record under the key made of
    the name and of the SHA-256 of "echo hi"; the second one only finds the
    record. *)
Lemma Script_Apply_once_witness :
  let c := bytes_of_string "echo hi" in
  let key := onceKey "setup" c in
  let apply := TargetStateScript_Apply MemSystem.clock MemSystem.marshal
                 MemSystem.bucket Sample.setup Sample.destAbsent in
  let r := apply (mkWorld MemSystem.empty []) in
  let r' := apply (after r) in
  key = Sample.setupKey
  /\ calls r = [EvGet MemSystem.bucket key None None;
                EvRunScript "setup" c None;
                EvSet MemSystem.bucket key Sample.setupRecord None]
  /\ result r = Ok tt
  /\ result r' = Ok tt
  /\ calls r' = [EvGet MemSystem.bucket key (Some Sample.setupRecord) None]
  /\ count isRunScript (calls r') = 0%nat /\ count isSet (calls r') = 0%nat.
Proof.
  intros c key apply r r'.
  pose (s2 := snd (MemSystem.runScript "setup" c MemSystem.empty)).
  pose (s3 := snd (MemSystem.set MemSystem.bucket key Sample.setupRecord s2)).
  destruct (Script_Apply_once MemSystem.clock MemSystem.marshal
              MemSystem.bucket Sample.setup Sample.destAbsent
              (mkWorld MemSystem.empty []) c eq_refl eq_refl)
    as (_ & _ & Hrun).
  destruct (Hrun MemSystem.empty s2 s3 Sample.setupRecord None)
    as (Hcalls & Hres & _ & Hsecond);
    try (vm_compute; reflexivity).
  destruct (Hsecond eq_refl Sample.setupRecord s3 Sample.destAbsent)
    as (Hres' & Hrun' & Hset'); [vm_compute; reflexivity |].
  destruct (Script_Apply_once MemSystem.clock MemSystem.marshal
              MemSystem.bucket Sample.setup Sample.destAbsent
              (after r) c eq_refl eq_refl)
    as (_ & Hskip & _).
  destruct (Hskip Sample.setupRecord s3) as (_ & Hcalls');
    [vm_compute; reflexivity |].
  split; [vm_compute; reflexivity |].
  split; [exact Hcalls |].
  split; [exact Hres |].
  split; [exact Hres' |].
  split; [exact Hcalls' |].
  split; [exact Hrun' | exact Hset'].
Defined.

(** A once-script whose execution fails leaves no record, and one whose
    record cannot be stored has run all the same. *)
Lemma Script_Apply_failures_witness :
  let apply s := TargetStateScript_Apply MemSystem.clock MemSystem.marshal
                   MemSystem.bucket Sample.setup Sample.destAbsent
                   (mkWorld s []) in
  let r := apply (MemSystem.failing MemSystem.OpRunScript "exit status 1"%string
                    MemSystem.empty) in
  let r' := apply (MemSystem.failing MemSystem.OpSet "disk full"%string
                     MemSystem.empty) in
  (result r = Err "exit status 1"%string /\ count isSet (calls r) = 0%nat)
  /\ (result r' = Err "disk full"%string
      /\ exists data,
          In (EvRunScript "setup" data None) (calls r')).
Proof.
  intros apply r r'. split.
  - destruct (Script_Apply_failures MemSystem.clock MemSystem.marshal
                MemSystem.bucket Sample.setup Sample.destAbsent
                (mkWorld (MemSystem.failing MemSystem.OpRunScript
                            "exit status 1"%string MemSystem.empty) []))
      as [Hrun _].
    apply (Hrun "setup"%string (bytes_of_string "echo hi")).
    vm_compute. right. left. reflexivity.
  - destruct (Script_Apply_failures MemSystem.clock MemSystem.marshal
                MemSystem.bucket Sample.setup Sample.destAbsent
                (mkWorld (MemSystem.failing MemSystem.OpSet
                            "disk full"%string MemSystem.empty) []))
      as [_ Hset].
    destruct (Hset MemSystem.bucket Sample.setupKey Sample.setupRecord
                "disk full"%string)
      as (_ & Hres & data & _ & Hin).
    + vm_compute. right. right. left. reflexivity.
    + split; [exact Hres | exists data; exact Hin].
Defined.

(** The specification's example of a script of white space only: neither
    execution nor record, with [once] or without. *)
Lemma Script_Apply_empty_witness :
  let apply t := TargetStateScript_Apply MemSystem.clock MemSystem.marshal
                   MemSystem.bucket t Sample.destAbsent
                   (mkWorld MemSystem.empty []) in
  let r := apply Sample.blank in
  let r' := apply Sample.blankAlways in
  (count isRunScript (calls r) = 0%nat /\ count isSet (calls r) = 0%nat)
  /\ (exists value err,
        calls r = [EvGet MemSystem.bucket (onceKey "blank" Sample.whitespace)
                     value err]
        /\ result r = ofErr err)
  /\ (result r' = Ok tt /\ calls r' = []).
Proof.
  intros apply r r'.
  destruct (Script_Apply_empty MemSystem.clock MemSystem.marshal
              MemSystem.bucket Sample.blank Sample.destAbsent
              (mkWorld MemSystem.empty []) Sample.whitespace
              eq_refl eq_refl) as (H1 & H2 & _ & H4).
  destruct (Script_Apply_empty MemSystem.clock MemSystem.marshal
              MemSystem.bucket Sample.blankAlways Sample.destAbsent
              (mkWorld MemSystem.empty []) Sample.whitespace
              eq_refl eq_refl) as (_ & _ & H3 & _).
  split; [split; [exact H1 | exact H2] |].
  split; [exact (H4 eq_refl) | exact (H3 eq_refl)].
Defined.

(** C5 as it is stated fails where the ledger cannot be read: the script is
    of white space only and [once] is set, and [Apply] returns the error of
    the lookup. *)
Lemma Script_Apply_empty_ledger_failure :
  let s := MemSystem.failing MemSystem.OpGet "database is locked"%string
             MemSystem.empty in
  let r := TargetStateScript_Apply MemSystem.clock MemSystem.marshal
             MemSystem.bucket Sample.blank Sample.destAbsent (mkWorld s []) in
  TargetStateScript.once Sample.blank = true
  /\ contentsFunc (TargetStateScript.contents Sample.blank) = Ok Sample.whitespace
  /\ isEmpty Sample.whitespace = true
  /\ result r = Err "database is locked"%string
  /\ result r <> Ok tt.
Proof.
  intros s r.
  assert (Hres : result r = Err "database is locked"%string).
  { vm_compute. reflexivity. }
  split; [reflexivity |]. split; [reflexivity |]. split; [reflexivity |].
  split; [exact Hres |]. rewrite Hres. discriminate.
Qed.

Lemma bashrc_checksums_differ :
  sha256Sum Sample.oldContents <> sha256Sum Sample.newContents.
Proof. intros H. vm_compute in H. discriminate H. Qed.

(** A file written where nothing is, where a directory is, and over a file
    of another content. *)
Lemma File_Apply_write_witness :
  let write := EvWriteFile Sample.bashrcPath Sample.newContents
                 (Sample.mode 6 0 0) in
  let old := Sample.destFile Sample.oldContents (Sample.mode 6 4 4) in
  let r1 := TargetStateFile_Apply Sample.bashrc Sample.destAbsent
              (mkWorld MemSystem.empty []) in
  let r2 := TargetStateFile_Apply Sample.bashrc Sample.destDir
              (mkWorld (Sample.holding (MemSystem.Dir (Sample.mode 7 5 5))) []) in
  let r3 := TargetStateFile_Apply Sample.bashrc (DestFile old)
              (mkWorld (Sample.holding
                          (MemSystem.File Sample.oldContents
                             (Sample.mode 6 4 4))) []) in
  (exists err, calls r1 = [write err] /\ result r1 = ofErr err)
  /\ ((exists e, calls r2 = [EvRemoveAll Sample.bashrcPath (Some e)]
                 /\ result r2 = Err e)
      \/ (exists err, calls r2 = [EvRemoveAll Sample.bashrcPath None; write err]
                      /\ result r2 = ofErr err))
  /\ (exists err, calls r3 = [write err] /\ result r3 = ofErr err).
Proof.
  intros write old r1 r2 r3.
  destruct (File_Apply_write Sample.bashrc Sample.destAbsent
              (mkWorld MemSystem.empty []) Sample.newContents eq_refl)
    as (H1 & _ & _).
  destruct (File_Apply_write Sample.bashrc Sample.destDir
              (mkWorld (Sample.holding (MemSystem.Dir (Sample.mode 7 5 5))) [])
              Sample.newContents eq_refl)
    as (_ & H2 & _).
  destruct (File_Apply_write Sample.bashrc (DestFile old)
              (mkWorld (Sample.holding
                          (MemSystem.File Sample.oldContents
                             (Sample.mode 6 4 4))) [])
              Sample.newContents eq_refl)
    as (_ & _ & H3).
  split; [exact (H1 eq_refl) |].
  split; [exact (H2 eq_refl eq_refl) |].
  exact (H3 old Sample.oldContents eq_refl eq_refl bashrc_checksums_differ).
Defined.

(** C1 as it is stated fails on a destination File of another content: the
    checksums differ and an entry exists at the destination, and [Apply]
    makes the one WriteFile call, which no removal precedes. *)
Lemma File_Apply_overwrites_without_removal :
  let d := DestFile (Sample.destFile Sample.oldContents (Sample.mode 6 4 4)) in
  let r := TargetStateFile_Apply Sample.bashrc d
             (mkWorld (Sample.holding
                         (MemSystem.File Sample.oldContents
                            (Sample.mode 6 4 4))) []) in
  sha256Sum Sample.oldContents <> sha256Sum Sample.newContents
  /\ isDestAbsent d = false
  /\ result r = Ok tt
  /\ calls r = [EvWriteFile Sample.bashrcPath Sample.newContents
                  (Sample.mode 6 0 0) None]
  /\ count isRemoveAll (calls r) = 0%nat
  /\ ~ (exists name err, In (EvRemoveAll name err) (calls r)).
Proof.
  intros d r.
  assert (Hcalls : calls r = [EvWriteFile Sample.bashrcPath Sample.newContents
                                (Sample.mode 6 0 0) None]).
  { vm_compute. reflexivity. }
  split; [exact bashrc_checksums_differ |].
  split; [reflexivity |].
  split; [vm_compute; reflexivity |].
  split; [exact Hcalls |].
  rewrite Hcalls. split; [reflexivity |].
  intros (name & err & [H | []]). discriminate H.
Qed.

(** ** What isEmpty takes for empty *)

(** An encoding of a white-space rune is made of bytes that are white space
    themselves or are not ASCII. *)
Lemma isSpaceEncoding_bytes (l : bytes) :
  unicode.isSpaceEncoding (map byte_to_Z l) = true ->
  forallb spaceByte l = true.
Proof.
  destruct l as [|a [|b [|c [|x rest]]]].
  - discriminate.
  - destruct a; intros H; first [reflexivity | discriminate H].
  - destruct a; intros H; try discriminate H;
      destruct b; first [reflexivity | discriminate H].
  - destruct a; intros H; try discriminate H;
      destruct b; try discriminate H;
      destruct c; first [reflexivity | discriminate H].
  - destruct a; intros H; try discriminate H;
      destruct b; try discriminate H;
      destruct c; try discriminate H.
Qed.

Lemma forallb_rev (P : byte -> bool) (l : bytes) :
  forallb P (rev l) = true -> forallb P l = true.
Proof.
  rewrite !forallb_forall. intros H x Hx. apply H. now apply in_rev in Hx.
Qed.

(** The white-space rune a slice starts with is made of such bytes. *)
Lemma leadingSpace_bytes (s : bytes) :
  forallb spaceByte (firstn (leadingSpace s) s) = true.
Proof.
  unfold leadingSpace.
  destruct (unicode.isSpaceEncoding (map byte_to_Z (firstn 1 s))) eqn:H1;
    [now apply isSpaceEncoding_bytes |].
  destruct (unicode.isSpaceEncoding (map byte_to_Z (firstn 2 s))) eqn:H2;
    [now apply isSpaceEncoding_bytes |].
  destruct (unicode.isSpaceEncoding (map byte_to_Z (firstn 3 s))) eqn:H3;
    [now apply isSpaceEncoding_bytes | reflexivity].
Qed.

Lemma trailingSpace_bytes (r : bytes) :
  forallb spaceByte (firstn (trailingSpace r) r) = true.
Proof.
  unfold trailingSpace.
  destruct (unicode.isSpaceEncoding (map byte_to_Z (rev (firstn 1 r)))) eqn:H1;
    [now apply forallb_rev, isSpaceEncoding_bytes |].
  destruct (unicode.isSpaceEncoding (map byte_to_Z (rev (firstn 2 r)))) eqn:H2;
    [now apply forallb_rev, isSpaceEncoding_bytes |].
  destruct (unicode.isSpaceEncoding (map byte_to_Z (rev (firstn 3 r)))) eqn:H3;
    [now apply forallb_rev, isSpaceEncoding_bytes | reflexivity].
Qed.

(** What is skipped keeps every byte the skipped part cannot hold. *)
Lemma skipn_keeps (P : byte -> bool) (k : nat) (l : bytes) (b : byte) :
  forallb P (firstn k l) = true -> P b = false -> In b l ->
  In b (skipn k l).
Proof.
  intros Hall Hb Hin. rewrite <- (firstn_skipn k l) in Hin.
  apply in_app_or in Hin. destruct Hin as [Hin | Hin]; [| exact Hin].
  rewrite forallb_forall in Hall. apply Hall in Hin. congruence.
Qed.

Lemma trimLeft_keeps (fuel : nat) (s : bytes) (b : byte) :
  spaceByte b = false -> In b s -> In b (trimLeft fuel s).
Proof.
  intros Hb. revert s. induction fuel as [|fuel IH]; intros s Hin;
    cbn [trimLeft]; [exact Hin |].
  destruct (leadingSpace s) as [|n] eqn:Hn; [exact Hin |].
  apply IH. apply (skipn_keeps spaceByte); try assumption.
  rewrite <- Hn. apply leadingSpace_bytes.
Qed.

Lemma trimRight_keeps (fuel : nat) (r : bytes) (b : byte) :
  spaceByte b = false -> In b r -> In b (trimRight fuel r).
Proof.
  intros Hb. revert r. induction fuel as [|fuel IH]; intros r Hin;
    cbn [trimRight]; [exact Hin |].
  destruct (trailingSpace r) as [|n] eqn:Hn; [exact Hin |].
  apply IH. apply (skipn_keeps spaceByte); try assumption.
  rewrite <- Hn. apply trailingSpace_bytes.
Qed.

(** No byte that is ASCII and not white space is trimmed. *)
Lemma TrimSpace_keeps (data : bytes) (b : byte) :
  spaceByte b = false -> In b data -> In b (bytes_TrimSpace data).
Proof.
  intros Hb Hin. unfold bytes_TrimSpace.
  rewrite <- in_rev. apply trimRight_keeps; [exact Hb |].
  rewrite <- in_rev. apply trimLeft_keeps; assumption.
Qed.

(** X15: A script that holds one visible ASCII byte, whatever else it holds, is
    not empty: the sharp of a comment or of a shebang line is enough. *)
Theorem isEmpty_visible_byte (data : bytes) (b : byte) :
  In b data -> isASCII b = true -> asciiSpace b = false ->
  isEmpty data = false.
Proof.
  intros Hin Hascii Hspace.
  assert (Hb : spaceByte b = false).
  { unfold spaceByte. now rewrite Hspace, Hascii. }
  pose proof (TrimSpace_keeps data b Hb Hin) as Hkept.
  unfold isEmpty. destruct (bytes_TrimSpace data); [contradiction | reflexivity].
Qed.

Lemma leadingSpace_ascii (a : byte) (rest : bytes) :
  asciiSpace a = true -> leadingSpace (a :: rest) = 1%nat.
Proof. destruct a; intros H; first [reflexivity | discriminate H]. Qed.

Lemma trimLeft_spaces (fuel : nat) (s : bytes) :
  (List.length s <= fuel)%nat -> forallb asciiSpace s = true ->
  trimLeft fuel s = [].
Proof.
  revert s. induction fuel as [|fuel IH]; intros s Hlen Hall.
  - destruct s; [reflexivity | cbn in Hlen; lia].
  - destruct s as [|a rest]; [reflexivity |].
    cbn [forallb] in Hall. apply andb_prop in Hall. destruct Hall as [Ha Hrest].
    cbn [trimLeft]. rewrite (leadingSpace_ascii a rest Ha). cbn [skipn].
    apply IH; [cbn in Hlen; lia | exact Hrest].
Qed.

(** X16: On ASCII content [isEmpty] holds exactly when every byte is one of tab,
    line feed, vertical tab, form feed, carriage return and space. *)
Theorem isEmpty_ascii (data : bytes) :
  forallb isASCII data = true ->
  isEmpty data = forallb asciiSpace data.
Proof.
  intros Hascii. destruct (forallb asciiSpace data) eqn:Hall.
  - unfold isEmpty, bytes_TrimSpace.
    rewrite trimLeft_spaces by (auto; lia). reflexivity.
  - assert (Hex : existsb (fun b => negb (asciiSpace b)) data = true).
    { clear Hascii. induction data as [|a rest IH]; [discriminate Hall |].
      cbn in *. destruct (asciiSpace a); cbn in *; auto. }
    apply existsb_exists in Hex. destruct Hex as (b & Hin & Hb).
    apply negb_true_iff in Hb.
    rewrite forallb_forall in Hascii.
    exact (isEmpty_visible_byte data b Hin (Hascii b Hin) Hb).
Qed.

(** ** Examples of the further properties *)

(** A once-script whose execution fails: the failed call is the last of the
    trace and its error is the result. *)
Lemma Apply_stops_at_failure_witness :
  let s := MemSystem.failing MemSystem.OpRunScript "exit status 1"%string
             MemSystem.empty in
  let r := Apply MemSystem.clock MemSystem.marshal MemSystem.bucket
             (TargetScript Sample.setup) Sample.destAbsent (mkWorld s []) in
  List.length (calls r) = 2%nat /\ result r = Err "exit status 1"%string.
Proof.
  intros s r. split; [vm_compute; reflexivity |].
  refine (proj2 (Apply_stops_at_failure MemSystem.clock MemSystem.marshal
                   MemSystem.bucket (TargetScript Sample.setup)
                   Sample.destAbsent (mkWorld s [])
                   [EvGet MemSystem.bucket Sample.setupKey None None]
                   (EvRunScript "setup" (bytes_of_string "echo hi")
                      (Some "exit status 1"%string))
                   [] "exit status 1"%string _ eq_refl)).
  vm_compute. reflexivity.
Defined.

(** The error of that run is the error of its last call. *)
Lemma Apply_error_provenance_witness :
  let s := MemSystem.failing MemSystem.OpRunScript "exit status 1"%string
             MemSystem.empty in
  let r := Apply MemSystem.clock MemSystem.marshal MemSystem.bucket
             (TargetScript Sample.setup) Sample.destAbsent (mkWorld s []) in
  (exists pre ev,
      calls r = pre ++ [ev] /\ failure ev = Some "exit status 1"%string)
  \/ result (Evaluate (TargetScript Sample.setup) (mkWorld s []))
     = Err "exit status 1"%string
  \/ destError Sample.destAbsent = Some "exit status 1"%string
  \/ (exists record, MemSystem.marshal record = Err "exit status 1"%string).
Proof.
  intros s r.
  apply (Apply_error_provenance MemSystem.clock MemSystem.marshal
           MemSystem.bucket (TargetScript Sample.setup) Sample.destAbsent
           (mkWorld s []) "exit status 1"%string).
  vm_compute. reflexivity.
Defined.

(** A file written where a directory is: the removal acts on the
    destination's path. *)
Lemma Apply_touches_only_destination_witness :
  let w := mkWorld (Sample.holding (MemSystem.Dir (Sample.mode 7 5 5))) [] in
  let r := Apply MemSystem.clock MemSystem.marshal MemSystem.bucket
             (TargetFile Sample.bashrc) Sample.destDir w in
  In (EvRemoveAll Sample.bashrcPath None) (calls r)
  /\ touched (EvRemoveAll Sample.bashrcPath None) = Some (Path Sample.destDir).
Proof.
  intros w r.
  assert (Hin : In (EvRemoveAll Sample.bashrcPath None) (calls r)).
  { vm_compute. left. reflexivity. }
  split; [exact Hin |].
  exact (proj2 (Apply_touches_only_destination MemSystem.clock
                  MemSystem.marshal MemSystem.bucket
                  (TargetFile Sample.bashrc) Sample.destDir w
                  (EvRemoveAll Sample.bashrcPath None) Hin eq_refl)).
Defined.

(** A directory that has its permissions already: nothing to do, and
    [Equal] says so. *)
Lemma Apply_noop_implies_Equal_witness :
  let d := DestDir {| DestStateDir.path := Sample.bashrcPath;
                      DestStateDir.perm := Sample.mode 7 5 5 |} in
  let w := mkWorld (Sample.holding (MemSystem.Dir (Sample.mode 7 5 5))) [] in
  result (Equal (TargetDir (Sample.dirExact true)) d w) = Ok true.
Proof.
  intros d w.
  apply (Apply_noop_implies_Equal MemSystem.clock MemSystem.marshal
           MemSystem.bucket (TargetDir (Sample.dirExact true)) d w w);
    reflexivity.
Defined.

(** A directory made where a file is, where nothing is, and a directory of
    mode 0700 brought to 0755. *)
Lemma Dir_Apply_behaviour_witness :
  let t := Sample.dirExact false in
  let tight := {| DestStateDir.path := Sample.bashrcPath;
                  DestStateDir.perm := Sample.mode 7 0 0 |} in
  let r1 := TargetStateDir_Apply t (DestDir tight)
              (mkWorld (Sample.holding (MemSystem.Dir (Sample.mode 7 0 0))) []) in
  let r2 := TargetStateDir_Apply t Sample.destAbsent
              (mkWorld MemSystem.empty []) in
  (exists err, calls r1 = [EvChmod Sample.bashrcPath (Sample.mode 7 5 5) err]
               /\ result r1 = ofErr err)
  /\ (exists err, calls r2 = [EvMkdir Sample.bashrcPath (Sample.mode 7 5 5) err]
                  /\ result r2 = ofErr err).
Proof.
  intros t tight r1 r2. split.
  - refine (proj1 (Dir_Apply_behaviour t (DestDir tight) _) tight eq_refl _).
    intros H. vm_compute in H. discriminate H.
  - exact (proj1 (proj2 (Dir_Apply_behaviour t Sample.destAbsent _)) eq_refl).
Defined.

(** The specification's example of a symlink: the old one is removed and
    the new one written. *)
Lemma Symlink_Apply_behaviour_witness :
  let w := mkWorld (Sample.holding (MemSystem.Symlink "/old/target")) [] in
  let d := Sample.destSymlink "/old/target" in
  let r := TargetStateSymlink_Apply Sample.passwd d w in
  (exists e, calls r = [EvRemoveAll (Path d) (Some e)] /\ result r = Err e)
  \/ (exists err,
        calls r = [EvRemoveAll (Path d) None;
                   EvWriteSymlink "/etc/passwd" (Path d) err]
        /\ result r = ofErr err).
Proof.
  intros w d r.
  refine (proj2 (proj2 (Symlink_Apply_behaviour Sample.passwd d w
                          "/etc/passwd"%string eq_refl))
            _ "/old/target"%string eq_refl eq_refl _).
  intros H. discriminate H.
Defined.

(** A symlink whose link name cannot be read leaves the old one alone. *)
Lemma Symlink_Apply_unresolved_witness :
  let w := mkWorld (Sample.holding (MemSystem.Symlink "/old/target")) [] in
  let r := TargetStateSymlink_Apply Sample.brokenLink
             (Sample.destSymlink "/old/target") w in
  calls r = [] /\ sys (after r) = sys w.
Proof.
  intros w r.
  destruct (Symlink_Apply_unresolved Sample.brokenLink
              (Sample.destSymlink "/old/target") w
              "readlink: permission denied"%string eq_refl)
    as (H1 & H2 & _).
  split; [exact H1 | exact H2].
Defined.

(** A file whose content cannot be read, applied where a directory is: the
    directory is removed and nothing is written. *)
Lemma File_Apply_unresolved_witness :
  let w := mkWorld (Sample.holding (MemSystem.Dir (Sample.mode 7 5 5))) [] in
  let r := TargetStateFile_Apply Sample.unreadable Sample.destDir w in
  count isWriteFile (calls r) = 0%nat
  /\ exists err,
       calls r = [EvRemoveAll Sample.bashrcPath err]
       /\ result r = Err (match err with
                          | Some e' => e'
                          | None => "open: permission denied"%string
                          end).
Proof.
  intros w r.
  destruct (File_Apply_unresolved Sample.unreadable Sample.destDir w
              "open: permission denied"%string eq_refl eq_refl)
    as (H1 & _ & H3).
  split; [exact H1 | exact (H3 eq_refl)].
Defined.

(** A script that is run every time, applied twice, is run twice. *)
Lemma Script_Apply_every_time_witness :
  let apply := TargetStateScript_Apply MemSystem.clock MemSystem.marshal
                 MemSystem.bucket Sample.motd Sample.destAbsent in
  let r := apply (mkWorld MemSystem.empty []) in
  let r' := apply (after r) in
  (exists err, calls r = [EvRunScript "motd" (bytes_of_string "cat /etc/motd") err]
               /\ result r = ofErr err)
  /\ (exists err, calls r' = [EvRunScript "motd" (bytes_of_string "cat /etc/motd") err]
                  /\ result r' = ofErr err)
  /\ List.length (MemSystem.executed (sys (after r'))) = 2%nat.
Proof.
  intros apply r r'.
  split; [| split].
  - exact (Script_Apply_every_time MemSystem.clock MemSystem.marshal
             MemSystem.bucket Sample.motd Sample.destAbsent
             (mkWorld MemSystem.empty []) (bytes_of_string "cat /etc/motd")
             eq_refl eq_refl eq_refl).
  - exact (Script_Apply_every_time MemSystem.clock MemSystem.marshal
             MemSystem.bucket Sample.motd Sample.destAbsent
             (after r) (bytes_of_string "cat /etc/motd")
             eq_refl eq_refl eq_refl).
  - vm_compute. reflexivity.
Defined.

(** A once-script on a ledger that cannot be read is not run. *)
Lemma Script_Apply_ledger_unreadable_witness :
  let s := MemSystem.failing MemSystem.OpGet "database is locked"%string
             MemSystem.empty in
  let r := TargetStateScript_Apply MemSystem.clock MemSystem.marshal
             MemSystem.bucket Sample.setup Sample.destAbsent (mkWorld s []) in
  result r = Err "database is locked"%string
  /\ count isRunScript (calls r) = 0%nat
  /\ MemSystem.executed (sys (after r)) = [].
Proof.
  intros s r.
  destruct (Script_Apply_ledger_unreadable MemSystem.clock MemSystem.marshal
              MemSystem.bucket Sample.setup Sample.destAbsent (mkWorld s [])
              (bytes_of_string "echo hi") None "database is locked"%string s
              eq_refl eq_refl)
    as (_ & H2 & H3 & H4); [vm_compute; reflexivity |].
  split; [exact H2 | split; [exact H4 |]].
  subst r. rewrite H3. reflexivity.
Defined.

(** The lookup of a once-script and the record stored for it are made
    under one key, the key of its name and checksum. *)
Lemma Script_ledger_key_identifies_witness :
  let apply := TargetStateScript_Apply MemSystem.clock MemSystem.marshal
                 MemSystem.bucket Sample.setup Sample.destAbsent
                 (mkWorld MemSystem.empty []) in
  let ev1 := EvGet MemSystem.bucket Sample.setupKey None None in
  let ev2 := EvSet MemSystem.bucket Sample.setupKey Sample.setupRecord None in
  In ev1 (calls apply) /\ In ev2 (calls apply)
  /\ TargetStateScript.name Sample.setup = TargetStateScript.name Sample.setup
  /\ sha256Sum (bytes_of_string "echo hi") = sha256Sum (bytes_of_string "echo hi").
Proof.
  intros apply ev1 ev2.
  assert (Hin1 : In ev1 (calls apply)) by (vm_compute; left; reflexivity).
  assert (Hin2 : In ev2 (calls apply))
    by (vm_compute; right; right; left; reflexivity).
  split; [exact Hin1 | split; [exact Hin2 |]].
  exact (Script_ledger_key_identifies MemSystem.clock MemSystem.marshal
           MemSystem.bucket Sample.setup Sample.setup
           Sample.destAbsent Sample.destAbsent
           (mkWorld MemSystem.empty []) (mkWorld MemSystem.empty [])
           (bytes_of_string "echo hi") (bytes_of_string "echo hi")
           ev1 ev2 Sample.setupKey eq_refl eq_refl Hin1 Hin2 eq_refl eq_refl).
Defined.

(** Two once-scripts of the same content, named setup and setup:again, have
    different keys. *)
Example setup_keys_differ :
  onceKey (TargetStateScript.name Sample.setup) (bytes_of_string "echo hi")
  <> onceKey (TargetStateScript.name Sample.setupAgain)
       (bytes_of_string "echo hi").
Proof.
  intros H. apply onceKey_inj in H. destruct H as [H _]. discriminate H.
Qed.

(** A file that cannot be read, applied where a directory is: an error, and
    no call but the removal. *)
Lemma Evaluate_failure_blocks_Apply_witness :
  let w := mkWorld (Sample.holding (MemSystem.Dir (Sample.mode 7 5 5))) [] in
  let r := Apply MemSystem.clock MemSystem.marshal MemSystem.bucket
             (TargetFile Sample.unreadable) Sample.destDir w in
  (exists e', result r = Err e')
  /\ (forall ev, In ev (calls r) ->
        ev = EvRemoveAll (Path Sample.destDir) (failure ev)).
Proof.
  intros w r.
  exact (Evaluate_failure_blocks_Apply MemSystem.clock MemSystem.marshal
           MemSystem.bucket (TargetFile Sample.unreadable) Sample.destDir w
           "open: permission denied"%string eq_refl).
Defined.

(** A shebang line is not an empty script. *)
Lemma isEmpty_visible_byte_witness : isEmpty Sample.shebang = false.
Proof.
  apply (isEmpty_visible_byte Sample.shebang "#"%byte);
    [left; reflexivity | reflexivity | reflexivity].
Defined.

(** Three spaces, a line feed and a tab are an empty script, and a shebang
    line is not. *)
Lemma isEmpty_ascii_witness :
  isEmpty Sample.whitespace = true /\ isEmpty Sample.shebang = false.
Proof.
  split.
  - exact (isEmpty_ascii Sample.whitespace eq_refl).
  - exact (isEmpty_ascii Sample.shebang eq_refl).
Defined.
